(** * amazon-sagemaker-build-train-deploy: the workshop's glue code, embedded

    Three artefacts of the workshop are modelled here:

    - the Lambda function of module 6 (README of [06_API_Gateway_and_Lambda]),
      a Python handler that dispatches on the HTTP method and forwards the
      request body to a SageMaker endpoint;
    - the two CloudFormation networking templates of [setup/] (VPC mode and
      direct mode);
    - the SageMaker Pipelines notebook of module 8 (parameters, steps, the
      pipeline object, and the approve-then-deploy cells that follow).

    Python dictionaries and CloudFormation mappings are finite maps
    ([gmap string _]); Python exceptions are the left summand of a sum;
    printing and the endpoint invocation are recorded in an effect log. *)

From stdpp Require Import base strings list gmap fin_maps.
From Stdlib Require Import ZArith Lia Ascii.

Set Warnings "-register-all".
Local Open Scope Z_scope.

(* ===================================================================== *)
(** * Part I. The embedding                                               *)
(* ===================================================================== *)

(** ** Python values and the effect monad of the handler *)

Module Py.

(** The values the handler sees are JSON data: the event delivered by
    API Gateway and the reply parsed by [json.loads]. A finite binary
    float is kept as mantissa and exponent, [m * 2^e]. *)
Inductive pyval :=
  | PNone
  | PBool (b : bool)
  | PInt (z : Z)
  | PFloat (m e : Z)
  | PStr (s : string)
  | PList (l : list pyval)
  | PDict (d : gmap string pyval).

Inductive pyexn :=
  | KeyError (key : pyval)
  | IndexError
  | TypeError
  | ClientError (msg : string)        (* raised by boto3 *)
  | UnicodeDecodeError
  | JSONDecodeError.

(** What the function does to the outside world, in program order. *)
Inductive effect :=
  | Stdout (line : string)
  | InvokeEndpoint (EndpointName ContentType : string) (Body : pyval).

(** A computation logs its effects and either raises or returns. *)
Definition M (A : Type) : Type := list effect * (pyexn + A).

#[global] Instance M_ret : MRet M := λ A a, ([], inr a).
#[global] Instance M_bind : MBind M := λ A B k m,
  match m with
  | (log, inl e) => (log, inl e)
  | (log, inr a) => let '(log', r) := k a in (log ++ log', r)
  end.

Definition raise {A} (e : pyexn) : M A := ([], inl e).
Definition lift {A} (r : pyexn + A) : M A := ([], r).
Definition print (line : string) : M unit := ([Stdout line], inr tt).

Definition effects {A} (m : M A) : list effect := m.1.
Definition outcome {A} (m : M A) : pyexn + A := m.2.

(** [d[k]] on a dictionary. *)
Definition dict_getitem (d : gmap string pyval) (k : string) : pyexn + pyval :=
  match d !! k with
  | Some v => inr v
  | None => inl (KeyError (PStr k))
  end.

(** Python's index normalisation: negative indices count from the end. *)
Definition py_index (len i : Z) : option nat :=
  if (0 <=? i) && (i <? len) then Some (Z.to_nat i)
  else if (- len <=? i) && (i <? 0) then Some (Z.to_nat (len + i))
  else None.

Fixpoint string_nth (s : string) (n : nat) : option Ascii.ascii :=
  match s, n with
  | EmptyString, _ => None
  | String c _, O => Some c
  | String _ s', S n' => string_nth s' n'
  end.

(** An index: an [int], or a [bool] (which Python counts as 0 or 1). *)
Definition as_index (k : pyval) : option Z :=
  match k with
  | PInt i => Some i
  | PBool b => Some (Z.b2z b)
  | _ => None
  end.

(** The subscript [v[k]]. A string subscripted by a string is a
    [TypeError] ("string indices must be integers"), as is any subscript
    of [None] or of a number. *)
Definition py_getitem (v k : pyval) : pyexn + pyval :=
  match v with
  | PDict d =>
      match k with
      | PStr key => dict_getitem d key
      | PList _ | PDict _ => inl TypeError               (* unhashable *)
      | _ => inl (KeyError k)                            (* keys are strings *)
      end
  | PList l =>
      match as_index k with
      | Some i =>
          match py_index (Z.of_nat (length l)) i ≫= (l !!.) with
          | Some x => inr x
          | None => inl IndexError
          end
      | None => inl TypeError
      end
  | PStr s =>
      match as_index k with
      | Some i =>
          match py_index (Z.of_nat (String.length s)) i ≫= string_nth s with
          | Some c => inr (PStr (String c EmptyString))
          | None => inl IndexError
          end
      | None => inl TypeError
      end
  | PNone | PBool _ | PInt _ | PFloat _ _ => inl TypeError
  end.

(** [v == 'literal']: only an equal string compares equal. *)
Definition py_eq_str (v : pyval) (s : string) : bool :=
  match v with
  | PStr t => bool_decide (t = s)
  | _ => false
  end.

End Py.

(** ** The Lambda function of module 6 *)

Module Lambda.
Import Py.

(** The Python runtime and the SageMaker runtime client are taken as
    given: [str], [json.dumps(_, indent=2)], [json.loads], the
    [invoke_endpoint] call of the boto3 client, the printed form of its
    response, and [response['Body'].read().decode()]. *)
Record runtime := {
  py_str : pyval → string;
  json_dumps : pyval → string;
  json_loads : string → pyexn + pyval;
  response : Type;
  invoke_endpoint : string → string → pyval → pyexn + response;
  response_str : response → string;
  read_decode : response → pyexn + string
}.

Section handler.
Variable rt : runtime.

Definition ENDPOINT_NAME : string :=
  "end-to-end-ml-sm-pipeline-endpoint-XXXXXXXXXX".

Definition runtime_invoke_endpoint
    (EndpointName ContentType : string) (Body : pyval) : M (response rt) :=
  ([InvokeEndpoint EndpointName ContentType Body],
   invoke_endpoint rt EndpointName ContentType Body).

Definition headers : gmap string pyval :=
  {[ "Content-Type" := PStr "application/json";
     "Access-Control-Allow-Origin" := PStr "*";
     "Access-Control-Allow-Credentials" := PStr "true";
     "Access-Control-Allow-Headers" := PStr "*" ]}.

(** [build_response]: both arguments are printed, then the dictionary
    is built; its ['body'] entry subscripts [response_body]. *)
Definition build_response (status_code response_body : pyval) : M pyval :=
  print (py_str rt status_code);;
  print (py_str rt response_body);;
  predictions ← lift (py_getitem response_body (PStr "predictions"));
  first ← lift (py_getitem predictions (PInt 0));
  score ← lift (py_getitem first (PStr "score"));
  mret (PDict {[ "statusCode" := status_code;
                 "body" := PStr (py_str rt score);
                 "headers" := PDict headers ]}).

(** [lambda_handler]: a function that falls off its end returns
    [None]. The [elif] evaluates [event['httpMethod']] a second time. *)
Definition lambda_handler (event : gmap string pyval) (context : pyval)
    : M pyval :=
  print ("Received event: " +:+ json_dumps rt (PDict event));;
  if bool_decide (is_Some (event !! "requestContext")) then
    method ← lift (dict_getitem event "httpMethod");
    if py_eq_str method "OPTIONS" then
      build_response (PInt 200) (PStr EmptyString)
    else
      method' ← lift (dict_getitem event "httpMethod");
      if py_eq_str method' "POST" then
        turbine_data ← lift (dict_getitem event "body");
        response ← runtime_invoke_endpoint ENDPOINT_NAME "text/csv"
                                           turbine_data;
        print (response_str rt response);;
        text ← lift (read_decode rt response);
        result ← lift (json_loads rt text);
        print (py_str rt result);;
        build_response (PInt 200) result
      else
        build_response (PInt 405) (PStr "null")
  else
    mret PNone.

End handler.

(** The calls to the inference endpoint among the effects. *)
Definition is_invoke (e : effect) : bool :=
  match e with
  | InvokeEndpoint _ _ _ => true
  | Stdout _ => false
  end.

Definition endpoint_calls (log : list effect) : list effect :=
  filter (λ e, is_invoke e) log.

(** A canned world for running the handler on examples: an endpoint
    that answers every request with one prediction of score 1/2. *)
Module Fixture.
Definition q : string :=
  String (Ascii.Ascii false true false false false true false false)
         EmptyString.
Definition reply_text : string :=
  "{" +:+ q +:+ "predictions" +:+ q +:+ ": [{" +:+ q +:+ "score" +:+ q
      +:+ ": 0.5}]}".
Definition reply : pyval :=
  PDict {[ "predictions" := PList [PDict {[ "score" := PFloat 1 (-1) ]}] ]}.
Definition str (v : pyval) : string :=
  match v with
  | PStr s => s
  | PInt 200 => "200"
  | PInt 405 => "405"
  | PFloat 1 (-1) => "0.5"
  | PNone => "None"
  | _ => "<value>"
  end.
Definition dumps (v : pyval) : string := "<json>".
Definition loads (text : string) : pyexn + pyval :=
  if bool_decide (text = reply_text) then inr reply else inl JSONDecodeError.
Definition invoke (EndpointName ContentType : string) (Body : pyval)
    : pyexn + string := inr reply_text.
Definition world : runtime :=
  {| py_str := str; json_dumps := dumps; json_loads := loads;
     response := string; invoke_endpoint := invoke;
     response_str := λ _, "<response>"; read_decode := inr |}.
Definition run : gmap string pyval → pyval → M pyval :=
  lambda_handler world.

Definition options_event : gmap string pyval :=
  {[ "requestContext" := PDict ∅; "httpMethod" := PStr "OPTIONS";
     "body" := PNone ]}.
Definition post_event : gmap string pyval :=
  {[ "requestContext" := PDict ∅; "httpMethod" := PStr "POST";
     "body" := PStr "L,298.4,308.2,1582,70.7,216" ]}.
Definition get_event : gmap string pyval :=
  {[ "requestContext" := PDict ∅; "httpMethod" := PStr "GET";
     "body" := PNone ]}.
Definition direct_event : gmap string pyval :=
  {[ "httpMethod" := PStr "POST";
     "body" := PStr "L,298.4,308.2,1582,70.7,216" ]}.
End Fixture.

End Lambda.

(** ** IPv4 CIDR blocks *)

Module Cidr.

(** A block is a 32-bit address and a prefix length. *)
Record cidr := { addr : Z; plen : Z }.

Definition digit (c : Ascii.ascii) : option Z :=
  let n := Z.of_nat (Ascii.nat_of_ascii c) in
  if (48 <=? n) && (n <=? 57) then Some (n - 48) else None.

Fixpoint decimal_go (s : string) (acc : Z) : option Z :=
  match s with
  | EmptyString => Some acc
  | String c s' => d ← digit c; decimal_go s' (10 * acc + d)
  end.

(** A non-empty run of decimal digits. *)
Definition decimal (s : string) : option Z :=
  match s with
  | EmptyString => None
  | _ => decimal_go s 0
  end.

(** The pieces of [s] between occurrences of [sep]. *)
Fixpoint split_on (sep : Ascii.ascii) (s : string) : list string :=
  match s with
  | EmptyString => [EmptyString]
  | String c s' =>
      if bool_decide (c = sep) then EmptyString :: split_on sep s'
      else match split_on sep s' with
           | piece :: rest => String c piece :: rest
           | [] => [String c EmptyString]
           end
  end.

(** Dotted quad, a slash, the prefix length. *)
Definition parse (s : string) : option cidr :=
  match split_on "/"%char s with
  | [a; l] =>
      match mapM decimal (split_on "."%char a), decimal l with
      | Some [o1; o2; o3; o4], Some n =>
          if forallb (λ o, o <=? 255) [o1; o2; o3; o4] && (n <=? 32)
          then Some {| addr := ((o1 * 256 + o2) * 256 + o3) * 256 + o4;
                       plen := n |}
          else None
      | _, _ => None
      end
  | _ => None
  end.

Definition wf (c : cidr) : Prop :=
  0 ≤ addr c < 2 ^ 32 ∧ 0 ≤ plen c ≤ 32.

(** Address [a] lies in block [c]: the leading [plen c] bits agree. *)
Definition contains (c : cidr) (a : Z) : Prop :=
  0 ≤ a < 2 ^ 32 ∧ a ≫ (32 - plen c) = addr c ≫ (32 - plen c).

Definition subset (c1 c2 : cidr) : Prop := ∀ a, contains c1 a → contains c2 a.
Definition disjoint (c1 c2 : cidr) : Prop :=
  ∀ a, ¬ (contains c1 a ∧ contains c2 a).

(** The executable tests. *)
Definition wfb (c : cidr) : bool :=
  (0 <=? addr c) && (addr c <? 2 ^ 32) && (0 <=? plen c) && (plen c <=? 32).

Definition subsetb (c1 c2 : cidr) : bool :=
  (plen c2 <=? plen c1)
  && (addr c1 ≫ (32 - plen c2) =? addr c2 ≫ (32 - plen c2)).

Definition disjointb (c1 c2 : cidr) : bool :=
  let n := 32 - Z.min (plen c1) (plen c2) in
  negb (addr c1 ≫ n =? addr c2 ≫ n).

End Cidr.

(** ** CloudFormation templates *)

Module Cfn.

(** Template values: YAML scalars, sequences and mappings, and the
    intrinsic functions the templates use. *)
Inductive value :=
  | Str (s : string)
  | Bool (b : bool)
  | Num (n : Z)
  | Ref (logical_name : string)
  | Sub (text : string)
  | GetAtt (attribute : string)
  | Select (index : Z) (objects : value)
  | GetAZs (region : value)
  | Seq (l : list value)
  | Map (m : gmap string value).

Record resource := {
  Type_ : string;
  DependsOn : option string;
  Properties : gmap string value
}.

Record output := {
  Value : value;
  Export : gmap string value
}.

Record template := {
  AWSTemplateFormatVersion : string;
  Description : string;
  Resources : gmap string resource;
  Outputs : gmap string output
}.

(** [Fn::Sub] with the one variable the templates use: every occurrence
    of the placeholder for the stack name is replaced by the name.
    After a match, [skip] counts the characters of the placeholder that
    remain to be dropped. *)
Definition StackName_var : string := "${AWS::StackName}".

Fixpoint sub_go (StackName : string) (skip : nat) (text : string) : string :=
  match text with
  | EmptyString => EmptyString
  | String c rest =>
      match skip with
      | S k => sub_go StackName k rest
      | O =>
          if String.prefix StackName_var text
          then StackName +:+ sub_go StackName (String.length StackName_var - 1) rest
          else String c (sub_go StackName 0 rest)
      end
  end.

Definition fn_sub (StackName text : string) : string :=
  sub_go StackName 0 text.

(** The name under which an output is exported by a stack of that name. *)
Definition export_name (StackName : string) (o : output) : option string :=
  match Export o !! "Name" with
  | Some (Sub text) => Some (fn_sub StackName text)
  | Some (Str s) => Some s
  | _ => None
  end.

Definition Name_tag (v : value) : value :=
  Seq [Map {[ "Key" := Str "Name"; "Value" := v ]}].

Definition az (index : Z) : value :=
  Select index (GetAZs (Ref "AWS::Region")).

(** *** Reading a template *)

Definition VPC := "AWS::EC2::VPC".
Definition Subnet := "AWS::EC2::Subnet".
Definition RouteTable := "AWS::EC2::RouteTable".
Definition Route := "AWS::EC2::Route".
Definition NatGateway := "AWS::EC2::NatGateway".
Definition InternetGateway := "AWS::EC2::InternetGateway".
Definition SecurityGroup := "AWS::EC2::SecurityGroup".
Definition SubnetRouteTableAssociation :=
  "AWS::EC2::SubnetRouteTableAssociation".

(** The logical name [n] is declared with resource type [ty]. *)
Definition has_type (t : template) (ty n : string) : Prop :=
  Type_ <$> Resources t !! n = Some ty.

Definition declares (t : template) (ty : string) : Prop :=
  ∃ n, has_type t ty n.

(** The resources of a type, with their logical names. *)
Definition resources_of (t : template) (ty : string)
    : list (string * resource) :=
  map_to_list (filter (λ kv, Type_ kv.2 = ty) (Resources t)).

Definition names_of (t : template) (ty : string) : list string :=
  (resources_of t ty).*1.

(** The keys of a mapping are compared as options of strings; values are
    only ever tested for absence. *)
#[global] Instance value_none_dec (o : option value) : Decision (o = None).
Proof. destruct o; [right | left]; done. Defined.

(** The CIDR block a VPC or subnet resource declares. *)
Definition cidr_of (r : resource) : option Cidr.cidr :=
  match Properties r !! "CidrBlock" with
  | Some (Str s) => Cidr.parse s
  | _ => None
  end.

(** A default route of route table [rt] whose target property [target]
    (["NatGatewayId"] or ["GatewayId"]) refers to resource [to]. *)
Definition default_route (t : template) (rt target to : string) : Prop :=
  ∃ n r, Resources t !! n = Some r ∧ Type_ r = Route
    ∧ Properties r !! "RouteTableId" = Some (Ref rt)
    ∧ Properties r !! "DestinationCidrBlock" = Some (Str "0.0.0.0/0")
    ∧ Properties r !! target = Some (Ref to).

(** A route table is private when none of its routes targets a gateway
    through ["GatewayId"] (the Internet gateway). *)
Definition private_route_table (t : template) (rt : string) : Prop :=
  has_type t RouteTable rt
  ∧ map_Forall (λ _ r,
      Type_ r = Route → Properties r !! "RouteTableId" = Some (Ref rt) →
      Properties r !! "GatewayId" = None) (Resources t).

(** The same as an executable test over the template's routes. *)
Definition refers (r : resource) (property target : string) : bool :=
  match Properties r !! property with
  | Some (Ref x) => bool_decide (x = target)
  | _ => false
  end.

Definition private_route_tableb (t : template) (rt : string) : bool :=
  bool_decide (Type_ <$> Resources t !! rt = Some RouteTable)
  && forallb (λ x, negb (refers x.2 "RouteTableId" rt)
                   || bool_decide (Properties x.2 !! "GatewayId" = None))
             (resources_of t Route).

(** The subnets that an association ties to a private route table. *)
Definition private_subnets (t : template) : list string :=
  omap (λ x,
      match Properties x.2 !! "SubnetId", Properties x.2 !! "RouteTableId" with
      | Some (Ref sn), Some (Ref rt) =>
          if private_route_tableb t rt
             && bool_decide (Type_ <$> Resources t !! sn = Some Subnet)
          then Some sn else None
      | _, _ => None
      end)
    (resources_of t SubnetRouteTableAssociation).

(** The NAT path: a NAT gateway and a default route to it from a private
    route table. *)
Definition nat_path (t : template) : Prop :=
  ∃ rt nat, private_route_table t rt ∧ has_type t NatGateway nat
    ∧ default_route t rt "NatGatewayId" nat.

(** A subnet is private when it is associated with a private route
    table. *)
Definition private_subnet (t : template) (sn : string) : Prop :=
  has_type t Subnet sn
  ∧ ∃ n r rt, Resources t !! n = Some r
      ∧ Type_ r = SubnetRouteTableAssociation
      ∧ Properties r !! "SubnetId" = Some (Ref sn)
      ∧ Properties r !! "RouteTableId" = Some (Ref rt)
      ∧ private_route_table t rt.



End Cfn.

(** ** The networking templates of [setup/] *)

Module Networking.
Import Cfn.

Definition a_subnet (cidr : string) (zone : Z) (tag : string) : resource :=
  {| Type_ := Subnet; DependsOn := None;
     Properties := {[ "VpcId" := Ref "SageMakerVPC";
                      "CidrBlock" := Str cidr;
                      "AvailabilityZone" := az zone;
                      "Tags" := Name_tag (Sub tag) ]} |}.

Definition a_route_table (tag : string) : resource :=
  {| Type_ := RouteTable; DependsOn := None;
     Properties := {[ "VpcId" := Ref "SageMakerVPC";
                      "Tags" := Name_tag (Sub tag) ]} |}.

Definition an_association (subnet table : string) : resource :=
  {| Type_ := SubnetRouteTableAssociation; DependsOn := None;
     Properties := {[ "SubnetId" := Ref subnet;
                      "RouteTableId" := Ref table ]} |}.

Definition the_vpc : resource :=
  {| Type_ := VPC; DependsOn := None;
     Properties := {[ "CidrBlock" := Str "10.0.0.0/16";
                      "EnableDnsSupport" := Bool true;
                      "EnableDnsHostnames" := Bool true;
                      "Tags" := Name_tag (Sub "${AWS::StackName}-vpc") ]} |}.

Definition the_internet_gateway : resource :=
  {| Type_ := InternetGateway; DependsOn := None;
     Properties := {[ "Tags" := Name_tag (Sub "${AWS::StackName}-igw") ]} |}.

Definition the_igw_attachment : resource :=
  {| Type_ := "AWS::EC2::VPCGatewayAttachment"; DependsOn := None;
     Properties := {[ "InternetGatewayId" := Ref "SageMakerInternetGateway";
                      "VpcId" := Ref "SageMakerVPC" ]} |}.

Definition the_public_route : resource :=
  {| Type_ := Route; DependsOn := None;
     Properties := {[ "RouteTableId" := Ref "SageMakerPublicRouteTable";
                      "DestinationCidrBlock" := Str "0.0.0.0/0";
                      "GatewayId" := Ref "SageMakerInternetGateway" ]} |}.

Definition an_export (resource_name name : string) : output :=
  {| Value := Ref resource_name;
     Export := {[ "Name" := Sub name ]} |}.

(** [setup/vpc_mode/01_networking.yaml] *)
Definition vpc_mode : template :=
  {| AWSTemplateFormatVersion := "2010-09-09";
     Description := "VPC Mode - Provision the networking resources to be used by the Amazon SageMaker Studio domain.";
     Resources := list_to_map [
       ("SageMakerVPC", the_vpc);
       ("SageMakerInternetGateway", the_internet_gateway);
       ("SageMakerIGWAttachment", the_igw_attachment);
       ("SageMakerPrivateSubnet1",
          a_subnet "10.0.0.0/24" 0 "${AWS::StackName}-private-subnet1");
       ("SageMakerPrivateSubnet2",
          a_subnet "10.0.1.0/24" 1 "${AWS::StackName}-private-subnet2");
       ("SageMakerPrivateRouteTable",
          a_route_table "${AWS::StackName}-private-routetable");
       ("SageMakerPrivateRoute",
          {| Type_ := Route; DependsOn := None;
             Properties :=
               {[ "RouteTableId" := Ref "SageMakerPrivateRouteTable";
                  "DestinationCidrBlock" := Str "0.0.0.0/0";
                  "NatGatewayId" := Ref "SageMakerNATGateway" ]} |});
       ("SageMakerPrivateSubnet1RouteTableAssociation",
          an_association "SageMakerPrivateSubnet1" "SageMakerPrivateRouteTable");
       ("SageMakerPrivateSubnet2RouteTableAssociation",
          an_association "SageMakerPrivateSubnet2" "SageMakerPrivateRouteTable");
       ("SageMakerPublicSubnet1",
          a_subnet "10.0.2.0/24" 0 "${AWS::StackName}-public-subnet1");
       ("SageMakerPublicRouteTable",
          a_route_table "${AWS::StackName}-public-routetable");
       ("SageMakerPublicRoute", the_public_route);
       ("studioVPCPublicSubnet1RouteTableAssociation",
          an_association "SageMakerPublicSubnet1" "SageMakerPublicRouteTable");
       ("SageMakerNATEIP",
          {| Type_ := "AWS::EC2::EIP";
             DependsOn := Some "SageMakerIGWAttachment";
             Properties :=
               {[ "Domain" := Str "vpc";
                  "Tags" := Name_tag (Sub "${AWS::StackName}-elastic-ip") ]} |});
       ("SageMakerNATGateway",
          {| Type_ := NatGateway;
             DependsOn := Some "SageMakerIGWAttachment";
             Properties :=
               {[ "AllocationId" := GetAtt "SageMakerNATEIP.AllocationId";
                  "SubnetId" := Ref "SageMakerPublicSubnet1";
                  "Tags" := Name_tag (Sub "${AWS::StackName}-nat-gateway") ]} |});
       ("SageMakerSecurityGroup",
          {| Type_ := SecurityGroup; DependsOn := None;
             Properties :=
               {[ "SecurityGroupEgress" :=
                    Seq [Map {[ "Description" := Str "All traffic is allowed outbound";
                                "IpProtocol" := Str "-1";
                                "CidrIp" := Str "0.0.0.0/0" ]}];
                  "GroupDescription" := Str "Security Group for SageMaker Studio";
                  "VpcId" := Ref "SageMakerVPC";
                  "Tags" := Name_tag (Str "studio-security-group") ]} |});
       ("SageMakerSecurityGroupSelfIngress",
          {| Type_ := "AWS::EC2::SecurityGroupIngress"; DependsOn := None;
             Properties :=
               {[ "Description" := Str "Self-ingress to enable communication between intances within the same SG";
                  "IpProtocol" := Str "-1";
                  "SourceSecurityGroupId" := Ref "SageMakerSecurityGroup";
                  "GroupId" := Ref "SageMakerSecurityGroup" ]} |})
     ];
     Outputs := list_to_map [
       ("SageMakerVPC", an_export "SageMakerVPC" "${AWS::StackName}-VPC");
       ("SageMakerSubnet1", an_export "SageMakerPrivateSubnet1" "${AWS::StackName}-Subnet1");
       ("SageMakerSubnet2", an_export "SageMakerPrivateSubnet2" "${AWS::StackName}-Subnet2");
       ("SageMakerSecurityGroup",
          an_export "SageMakerSecurityGroup"
                    "${AWS::StackName}-SecurityGroup")
     ] |}.

(** [setup/direct_mode/01_networking.yaml] *)
Definition direct_mode : template :=
  {| AWSTemplateFormatVersion := "2010-09-09";
     Description := "Provision the networking resources to be used by the Amazon SageMaker Studio domain.";
     Resources := list_to_map [
       ("SageMakerVPC", the_vpc);
       ("SageMakerInternetGateway", the_internet_gateway);
       ("SageMakerIGWAttachment", the_igw_attachment);
       ("SageMakerPublicSubnet1",
          a_subnet "10.0.0.0/24" 0 "${AWS::StackName}-public-subnet1");
       ("SageMakerPublicSubnet2",
          a_subnet "10.0.1.0/24" 1 "${AWS::StackName}-public-subnet2");
       ("SageMakerPublicRouteTable",
          a_route_table "${AWS::StackName}-public-routetable");
       ("SageMakerPublicRoute", the_public_route);
       ("SageMakerPublicSubnet1RouteTableAssociation",
          an_association "SageMakerPublicSubnet1" "SageMakerPublicRouteTable");
       ("SageMakerPublicSubnet2RouteTableAssociation",
          an_association "SageMakerPublicSubnet2" "SageMakerPublicRouteTable")
     ];
     Outputs := list_to_map [
       ("SageMakerVPC", an_export "SageMakerVPC" "${AWS::StackName}-VPC");
       ("SageMakerSubnet1", an_export "SageMakerPublicSubnet1" "${AWS::StackName}-Subnet1");
       ("SageMakerSubnet2", an_export "SageMakerPublicSubnet2" "${AWS::StackName}-Subnet2")
     ] |}.

(** What the networking claim asks of a template. *)
Definition full_network (t : template) : Prop :=
  declares t VPC ∧ declares t Subnet ∧ declares t RouteTable
  ∧ nat_path t ∧ declares t SecurityGroup.


(** The CIDR layout: the VPC block is 10.0.0.0/16; every subnet has a
    /24 block inside it; the blocks of different subnets share no
    address. *)
Definition vpc_block : Cidr.cidr := {| Cidr.addr := 10 * 2 ^ 24; Cidr.plen := 16 |}.

Definition cidr_layout (t : template) : Prop :=
  map_Forall (λ _ r, Type_ r = VPC →
      Properties r !! "CidrBlock" = Some (Str "10.0.0.0/16")
      ∧ cidr_of r = Some vpc_block) (Resources t)
  ∧ map_Forall (λ _ r, Type_ r = Subnet →
      ∃ c, cidr_of r = Some c ∧ Cidr.plen c = 24
           ∧ Cidr.subset c vpc_block) (Resources t)
  ∧ ∀ n1 n2 r1 r2 c1 c2,
      Resources t !! n1 = Some r1 → Resources t !! n2 = Some r2 →
      Type_ r1 = Subnet → Type_ r2 = Subnet → n1 ≠ n2 →
      cidr_of r1 = Some c1 → cidr_of r2 = Some c2 →
      Cidr.disjoint c1 c2.

(** The same layout as an executable test over the resources of type
    VPC and Subnet. *)
Definition vpc_okb (r : resource) : bool :=
  match Properties r !! "CidrBlock" with
  | Some (Str s) => bool_decide (s = "10.0.0.0/16")
  | _ => false
  end.

Definition subnet_okb (r : resource) : bool :=
  match cidr_of r with
  | Some c => Cidr.wfb c && (Cidr.plen c =? 24) && Cidr.subsetb c vpc_block
  | None => false
  end.

Definition apartb (x y : string * resource) : bool :=
  bool_decide (x.1 = y.1)
  || match cidr_of x.2, cidr_of y.2 with
     | Some c1, Some c2 => Cidr.disjointb c1 c2
     | _, _ => false
     end.

Definition cidr_layoutb (t : template) : bool :=
  let subnets := resources_of t Subnet in
  forallb (λ x, vpc_okb x.2) (resources_of t VPC)
  && forallb (λ x, subnet_okb x.2) subnets
  && forallb (λ x, forallb (apartb x) subnets) subnets.

End Networking.

(** ** The pipeline notebook of module 8 *)

(** The SageMaker SDK objects the notebook builds, as records of the
    keyword arguments they are built from. *)
Module Sdk.

(** [sagemaker.workflow.parameters]. ([ParameterFloat] is imported by
    the notebook and never used.) *)
Inductive parameter :=
  | ParameterString (name default_value : string)
  | ParameterInteger (name : string) (default_value : Z).

Definition parameter_name (p : parameter) : string :=
  match p with
  | ParameterString n _ | ParameterInteger n _ => n
  end.

(** One step of a property path: an attribute or a subscript. *)
Inductive accessor :=
  | Attr (a : string)
  | Key (k : string).

(** What can be handed to a builder: a literal, a pipeline parameter, or
    a property of another step ([step.properties. ...]). *)
Inductive arg :=
  | Lit (s : string)
  | IntLit (n : Z)
  | Param (p : parameter)
  | Get (step_name : string) (path : list accessor).

(** A value at execution time. *)
Inductive pval :=
  | VStr (s : string)
  | VInt (n : Z).

Module SKLearnProcessor.
Record t := { role : string; instance_type : arg; instance_count : arg;
              framework_version : string }.
End SKLearnProcessor.

Module ProcessingInput.
Record t := { input_name : string; source : arg; destination : string }.
End ProcessingInput.

Module ProcessingOutput.
Record t := { output_name : string; source : string; destination : arg }.
End ProcessingOutput.

Module ProcessingStep.
Record t := { name : string; code : string;
              processor : SKLearnProcessor.t;
              inputs : list ProcessingInput.t;
              outputs : list ProcessingOutput.t;
              job_arguments : list arg }.
End ProcessingStep.

Module XGBoost.
Record t := { entry_point : string; source_dir : string;
              output_path : arg; code_location : string;
              hyperparameters : gmap string arg;
              instance_type : arg; instance_count : arg;
              framework_version : string; py_version : string;
              role : string }.
End XGBoost.

Module TrainingInput.
Record t := { s3_data : arg; content_type : string }.
End TrainingInput.

Module TrainingStep.
Record t := { name : string; estimator : XGBoost.t;
              inputs : gmap string TrainingInput.t }.
End TrainingStep.

(** [SKLearnModel] and [XGBoostModel] take the same arguments. *)
Module Model.
Record t := { name : string; model_data : arg; entry_point : string;
              source_dir : string; code_location : string;
              framework_version : string; py_version : string;
              role : string }.
End Model.

Module PipelineModel.
Record t := { name : string; role : string; models : list Model.t }.
End PipelineModel.

Module RegisterModel.
Record t := { name : string; content_types : list string;
              response_types : list string;
              inference_instances : list arg;
              transform_instances : list string;
              model_package_group_name : string;
              approval_status : arg;
              model : PipelineModel.t }.
End RegisterModel.

Inductive step :=
  | StepProcessing (s : ProcessingStep.t)
  | StepTraining (s : TrainingStep.t)
  | StepRegister (s : RegisterModel.t).

Module Pipeline.
Record t := { name : string; parameters : list parameter;
              steps : list step }.
End Pipeline.

Definition step_name (s : step) : string :=
  match s with
  | StepProcessing s => ProcessingStep.name s
  | StepTraining s => TrainingStep.name s
  | StepRegister s => RegisterModel.name s
  end.

(** Every argument a step was built from. *)
Definition step_args (s : step) : list arg :=
  match s with
  | StepProcessing s =>
      let p := ProcessingStep.processor s in
      [SKLearnProcessor.instance_type p; SKLearnProcessor.instance_count p]
      ++ (ProcessingInput.source <$> ProcessingStep.inputs s)
      ++ (ProcessingOutput.destination <$> ProcessingStep.outputs s)
      ++ ProcessingStep.job_arguments s
  | StepTraining s =>
      let e := TrainingStep.estimator s in
      [XGBoost.output_path e; XGBoost.instance_type e;
       XGBoost.instance_count e]
      ++ (map_to_list (XGBoost.hyperparameters e)).*2
      ++ (TrainingInput.s3_data <$> (map_to_list (TrainingStep.inputs s)).*2)
  | StepRegister s =>
      RegisterModel.inference_instances s
      ++ [RegisterModel.approval_status s]
      ++ (Model.model_data <$>
            PipelineModel.models (RegisterModel.model s))
  end.

(** The steps whose properties a step reads: the edges the service adds
    to the pipeline's graph ("the dependencies among the steps will be
    automatically computed based on the inputs and outputs of each
    step"). *)
Definition referenced_steps (s : step) : list string :=
  omap (λ a, match a with Get n _ => Some n | _ => None end) (step_args s).


(** The value of a parameter in an execution started with [overrides]:
    "SageMaker Pipelines will use the default values for those parameters
    that are not passed in when starting the execution". *)
Definition parameter_default (p : parameter) : pval :=
  match p with
  | ParameterString _ d => VStr d
  | ParameterInteger _ d => VInt d
  end.

Definition parameter_value (overrides : gmap string pval) (p : parameter)
    : pval :=
  default (parameter_default p) (overrides !! parameter_name p).

Definition plain_value (overrides : gmap string pval) (a : arg)
    : option pval :=
  match a with
  | Lit s => Some (VStr s)
  | IntLit n => Some (VInt n)
  | Param p => Some (parameter_value overrides p)
  | Get _ _ => None
  end.

(** The S3 URI a processing job reports for its output [k]: the
    destination the output was declared with. *)
Definition output_uri (overrides : gmap string pval)
    (s : ProcessingStep.t) (k : string) : option pval :=
  o ← list_find (λ o, ProcessingOutput.output_name o = k)
                (ProcessingStep.outputs s);
  plain_value overrides (ProcessingOutput.destination o.2).

Definition find_processing (steps : list step) (n : string)
    : option ProcessingStep.t :=
  s ← list_find (λ s, step_name s = n) steps;
  match s.2 with
  | StepProcessing p => Some p
  | _ => None
  end.

(** The value of an argument in an execution. Of the step properties,
    only the S3 URIs of processing outputs are given a value here. *)
Definition arg_value (overrides : gmap string pval) (steps : list step)
    (a : arg) : option pval :=
  match a with
  | Get n [Attr "ProcessingOutputConfig"; Attr "Outputs"; Key k;
           Attr "S3Output"; Attr "S3Uri"] =>
      p ← find_processing steps n; output_uri overrides p k
  | Get _ _ => None
  | _ => plain_value overrides a
  end.

End Sdk.

Module Notebook.
Import Sdk.

(** What the notebook reads from its session: the execution role, the
    default bucket, the stored experiment name, and the clock
    ([str(int(time.time()))] at each of the four places it is used). *)
Record session := {
  role : string;
  bucket_name : string;
  experiment_name : string;
  timestamp : nat → string
}.

(** The service calls of the cells that follow the pipeline's
    definition. *)
Inductive call :=
  | upsert (p : Pipeline.t)
  | start (parameters : gmap string pval)
  | wait
  | list_steps
  | describe_model_package
  | update_model_package (ModelApprovalStatus : string)
  | deploy (initial_instance_count : Z)
           (instance_type endpoint_name : string)
  | predict (payload : string)
  | delete_endpoint.

Section cells.
Variable env : session.

Definition prefix : string := "end-to-end-ml".

(** ['s3://{0}/{1}<rest>'.format(bucket_name, prefix)] *)
Definition s3 (rest : string) : string :=
  "s3://" +:+ bucket_name env +:+ "/" +:+ prefix +:+ rest.

(** *** Pipeline parameters *)

Definition raw_data_path := s3 "/data/raw/".
Definition raw_data_path_param :=
  ParameterString "raw_data_path" raw_data_path.

Definition train_data_path := s3 "/data/preprocessed/train/".
Definition train_data_path_param :=
  ParameterString "train_data_path" train_data_path.

Definition val_data_path := s3 "/data/preprocessed/val/".
Definition val_data_path_param :=
  ParameterString "val_data_path" val_data_path.

Definition test_data_path := s3 "/data/preprocessed/test/".
Definition test_data_path_param :=
  ParameterString "test_data_path" test_data_path.

Definition model_path := s3 "/output/sklearn/model.tar.gz".
Definition model_path_param := ParameterString "model_path" model_path.

Definition processing_instance_type_param :=
  ParameterString "processing_instance_type" "ml.m5.large".
Definition processing_instance_count_param :=
  ParameterInteger "processing_instance_count" 1.
Definition train_test_split_ratio_param :=
  ParameterString "train_test_split_ratio" "0.2".

Definition max_depth_param := ParameterString "max_depth" "3".
Definition eta_param := ParameterString "eta" "0.1".
Definition gamma_param := ParameterString "gamma" "0".
Definition min_child_weight_param :=
  ParameterString "min_child_weight" "1".
Definition objective_param :=
  ParameterString "objective" "binary:logistic".
Definition num_round_param := ParameterString "num_round" "10".
Definition eval_metric_param := ParameterString "eval_metric" "auc".

Definition training_instance_type_param :=
  ParameterString "training_instance_type" "ml.m5.xlarge".
Definition training_instance_count_param :=
  ParameterInteger "training_instance_count" 1.

Definition output_path := s3 "/output/".
Definition output_path_param := ParameterString "output_path" output_path.

Definition deploy_instance_type_param :=
  ParameterString "deploy_instance_type" "ml.m5.2xlarge".
Definition model_approval_status_param :=
  ParameterString "model_approval_status" "PendingManualApproval".

(** The parameters the "Pipeline parameters" cell declares, in the
    order of their declaration. *)
Definition declared_parameters : list parameter :=
  [raw_data_path_param; train_data_path_param; val_data_path_param;
   test_data_path_param; model_path_param;
   processing_instance_type_param; processing_instance_count_param;
   train_test_split_ratio_param;
   max_depth_param; eta_param; gamma_param; min_child_weight_param;
   objective_param; num_round_param; eval_metric_param;
   training_instance_type_param; training_instance_count_param;
   output_path_param;
   deploy_instance_type_param; model_approval_status_param].

(** *** Processing step *)

Definition sklearn_processor : SKLearnProcessor.t :=
  {| SKLearnProcessor.role := role env;
     SKLearnProcessor.instance_type := Param processing_instance_type_param;
     SKLearnProcessor.instance_count := Param processing_instance_count_param;
     SKLearnProcessor.framework_version := "0.20.0" |}.

Definition inputs : list ProcessingInput.t :=
  [ {| ProcessingInput.input_name := "raw_data";
       ProcessingInput.source := Param raw_data_path_param;
       ProcessingInput.destination := "/opt/ml/processing/input" |} ].

Definition outputs : list ProcessingOutput.t :=
  [ {| ProcessingOutput.output_name := "train_data";
       ProcessingOutput.source := "/opt/ml/processing/train";
       ProcessingOutput.destination := Param train_data_path_param |};
    {| ProcessingOutput.output_name := "val_data";
       ProcessingOutput.source := "/opt/ml/processing/val";
       ProcessingOutput.destination := Param val_data_path_param |};
    {| ProcessingOutput.output_name := "test_data";
       ProcessingOutput.source := "/opt/ml/processing/test";
       ProcessingOutput.destination := Param test_data_path_param |};
    {| ProcessingOutput.output_name := "model";
       ProcessingOutput.source := "/opt/ml/processing/model";
       ProcessingOutput.destination := Param model_path_param |} ].

Definition code_path : string :=
  "../03_feature_engineering/source_dir/preprocessor.py".

Definition processing_step : ProcessingStep.t :=
  {| ProcessingStep.name := "Processing";
     ProcessingStep.code := code_path;
     ProcessingStep.processor := sklearn_processor;
     ProcessingStep.inputs := inputs;
     ProcessingStep.outputs := outputs;
     ProcessingStep.job_arguments :=
       [Lit "--train-test-split-ratio";
        Param train_test_split_ratio_param] |}.

(** [processing_step.properties.ProcessingOutputConfig
       .Outputs[k].S3Output.S3Uri] *)
Definition processing_output_uri (k : string) : arg :=
  Get (ProcessingStep.name processing_step)
      [Attr "ProcessingOutputConfig"; Attr "Outputs"; Key k;
       Attr "S3Output"; Attr "S3Uri"].

(** *** Training step *)

Definition hyperparameters : gmap string arg :=
  {[ "max_depth" := Param max_depth_param;
     "eta" := Param eta_param;
     "gamma" := Param gamma_param;
     "min_child_weight" := Param min_child_weight_param;
     "silent" := IntLit 0;
     "objective" := Param objective_param;
     "num_round" := Param num_round_param;
     "eval_metric" := Param eval_metric_param ]}.

Definition code_location : string := s3 "/code".

Definition estimator : XGBoost.t :=
  {| XGBoost.entry_point := "training.py";
     XGBoost.source_dir := "../04_train_model/source_dir/";
     XGBoost.output_path := Param output_path_param;
     XGBoost.code_location := code_location;
     XGBoost.hyperparameters := hyperparameters;
     XGBoost.instance_type := Param training_instance_type_param;
     XGBoost.instance_count := Param training_instance_count_param;
     XGBoost.framework_version := "0.90-2";
     XGBoost.py_version := "py3";
     XGBoost.role := role env |}.

Definition training_step : TrainingStep.t :=
  {| TrainingStep.name := "Training";
     TrainingStep.estimator := estimator;
     TrainingStep.inputs :=
       {[ "train" :=
            {| TrainingInput.s3_data := processing_output_uri "train_data";
               TrainingInput.content_type := "text/csv" |};
          "validation" :=
            {| TrainingInput.s3_data := processing_output_uri "val_data";
               TrainingInput.content_type := "text/csv" |} ]} |}.

(** *** Register-model step *)

Definition sklearn_model : Model.t :=
  {| Model.name := "end-to-end-ml-sm-skl-model-" +:+ timestamp env 0;
     Model.model_data := processing_output_uri "model";
     Model.entry_point := "inference.py";
     Model.source_dir := "../05_deploy_model/sklearn_source_dir/";
     Model.code_location := code_location;
     Model.framework_version := "0.20.0";
     Model.py_version := "py3";
     Model.role := role env |}.

Definition xgboost_model : Model.t :=
  {| Model.name := "end-to-end-ml-sm-xgb-model-" +:+ timestamp env 1;
     Model.model_data :=
       Get (TrainingStep.name training_step)
           [Attr "ModelArtifacts"; Attr "S3ModelArtifacts"];
     Model.entry_point := "inference.py";
     Model.source_dir := "../05_deploy_model/xgboost_source_dir/";
     Model.code_location := code_location;
     Model.framework_version := "0.90-2";
     Model.py_version := "py3";
     Model.role := role env |}.

Definition pipeline_model_name : string :=
  "end-to-end-ml-sm-xgb-skl-pipeline-" +:+ timestamp env 2.

Definition pipeline_model : PipelineModel.t :=
  {| PipelineModel.name := pipeline_model_name;
     PipelineModel.role := role env;
     PipelineModel.models := [sklearn_model; xgboost_model] |}.

Definition model_package_group_name : string :=
  "end-to-end-ml-sm-model-package-group".

Definition register_model_step : RegisterModel.t :=
  {| RegisterModel.name := "RegisterModel";
     RegisterModel.content_types := ["text/csv"];
     RegisterModel.response_types := ["application/json"; "text/csv"];
     RegisterModel.inference_instances := [Param deploy_instance_type_param];
     RegisterModel.transform_instances := ["ml.c5.4xlarge"];
     RegisterModel.model_package_group_name := model_package_group_name;
     RegisterModel.approval_status := Param model_approval_status_param;
     RegisterModel.model := pipeline_model |}.

(** *** Pipeline *)

Definition pipeline_name : string := "end-to-end-ml-sagemaker-pipeline".

Definition pipeline : Pipeline.t :=
  {| Pipeline.name := pipeline_name;
     Pipeline.parameters :=
       [raw_data_path_param;
        train_data_path_param;
        val_data_path_param;
        test_data_path_param;
        model_path_param;
        processing_instance_type_param;
        processing_instance_count_param;
        train_test_split_ratio_param;
        max_depth_param;
        eta_param;
        gamma_param;
        min_child_weight_param;
        objective_param;
        num_round_param;
        eval_metric_param;
        training_instance_type_param;
        training_instance_count_param;
        output_path_param;
        deploy_instance_type_param;
        model_approval_status_param];
     Pipeline.steps :=
       [StepProcessing processing_step; StepTraining training_step;
        StepRegister register_model_step] |}.

(** *** The cells after the definition: run, approve, deploy *)

Definition endpoint_name : string :=
  "end-to-end-ml-sm-pipeline-endpoint-" +:+ timestamp env 3.

(** The calls in the order of the notebook's cells. *)
Definition cells : list call :=
  [ upsert pipeline;
    start {[ "train_test_split_ratio" := VStr "0.2" ]};
    wait;
    list_steps;
    describe_model_package;
    update_model_package "Approved";
    deploy 1 "ml.m5.2xlarge" endpoint_name;
    predict "L,298.4,308.2,1582,70.7,216";
    delete_endpoint ].

End cells.

(** The model registry as the notebook relies on it: an execution of the
    upserted pipeline registers a model package with the status its
    register step resolves to; [update_model_package] sets the status;
    [deploy] is recorded with the status the package has at that
    moment. *)
Record registry := {
  definition : option Pipeline.t;
  package_status : option pval;
  deployments : list (option pval)
}.

Definition empty_registry : registry :=
  {| definition := None; package_status := None; deployments := [] |}.

Definition registered_status (p : Pipeline.t) (overrides : gmap string pval)
    : option pval :=
  r ← head (omap (λ s, match s with StepRegister r => Some r | _ => None end)
                 (Pipeline.steps p));
  arg_value overrides (Pipeline.steps p) (RegisterModel.approval_status r).

Definition run_call (w : registry) (c : call) : registry :=
  match c with
  | upsert p =>
      {| definition := Some p; package_status := package_status w;
         deployments := deployments w |}
  | start overrides =>
      {| definition := definition w;
         package_status := p ← definition w; registered_status p overrides;
         deployments := deployments w |}
  | update_model_package status =>
      {| definition := definition w;
         package_status := package_status w ≫= λ _, Some (VStr status);
         deployments := deployments w |}
  | deploy _ _ _ =>
      {| definition := definition w; package_status := package_status w;
         deployments := deployments w ++ [package_status w] |}
  | wait | list_steps | describe_model_package | predict _
  | delete_endpoint => w
  end.

Definition run (cs : list call) : registry :=
  foldl run_call empty_registry cs.

Definition is_deploy (c : call) : bool :=
  match c with deploy _ _ _ => true | _ => false end.

Definition is_approval (c : call) : bool :=
  match c with
  | update_model_package status => bool_decide (status = "Approved")
  | _ => false
  end.

(** Scanning the calls in order: every [deploy] comes after an approval
    ([approved] tells whether one has been seen already). *)
Fixpoint deploys_after_approval (approved : bool) (cs : list call) : bool :=
  match cs with
  | [] => true
  | c :: cs' =>
      (negb (is_deploy c) || approved)
      && deploys_after_approval (approved || is_approval c) cs'
  end.

End Notebook.

(** ** More runs of the Lambda function *)

Module LambdaCases.
Import Py Lambda.

(** A runtime whose endpoint call ends as [called] and whose [json.loads]
    ends as [parsed], whatever they are given. *)
Definition world_of (called : pyexn + string) (parsed : pyexn + pyval)
    : runtime :=
  {| py_str := Fixture.str; json_dumps := Fixture.dumps;
     json_loads := λ _, parsed;
     response := string; invoke_endpoint := λ _ _ _, called;
     response_str := λ _, "<response>"; read_decode := inr |}.

(** An event in the shape of the HTTP API payload format 2.0: the method
    is under ['requestContext'], there is no top-level ['httpMethod']. *)
Definition v2_event : gmap string pyval :=
  {[ "requestContext" :=
       PDict {[ "http" := PDict {[ "method" := PStr "POST" ]} ]};
     "body" := PStr "L,298.4,308.2,1582,70.7,216" ]}.

(** A POST without a ['body'] key. *)
Definition bodyless_event : gmap string pyval :=
  {[ "requestContext" := PDict ∅; "httpMethod" := PStr "POST" ]}.

Definition throttled : pyexn := ClientError "ThrottlingException".

(** The expression [response_body['predictions'][0]['score']] on its
    own. *)
Definition score_of (body : pyval) : pyexn + pyval :=
  match py_getitem body (PStr "predictions") with
  | inl e => inl e
  | inr predictions =>
      match py_getitem predictions (PInt 0) with
      | inl e => inl e
      | inr first => py_getitem first (PStr "score")
      end
  end.

Definition empty_reply : gmap string pyval := {[ "predictions" := PList [] ]}.
Definition error_reply : gmap string pyval :=
  {[ "error" := PStr "model error" ]}.

End LambdaCases.

(** ** References and routes inside a template *)

Module CfnGraph.
Import Cfn.

(** The variables of an [Fn::Sub] text: the names between a dollar sign
    with an opening brace and the next closing brace. *)
Inductive scan :=
  | Outside
  | Dollar
  | Inside (name : string).

Fixpoint sub_vars_go (st : scan) (text : string) : list string :=
  match text with
  | EmptyString => []
  | String c rest =>
      match st with
      | Outside =>
          sub_vars_go (if bool_decide (c = "$"%char) then Dollar else Outside)
                      rest
      | Dollar =>
          if bool_decide (c = "{"%char) then sub_vars_go (Inside EmptyString) rest
          else if bool_decide (c = "$"%char) then sub_vars_go Dollar rest
          else sub_vars_go Outside rest
      | Inside name =>
          if bool_decide (c = "}"%char) then name :: sub_vars_go Outside rest
          else sub_vars_go (Inside (name +:+ String c EmptyString)) rest
      end
  end.

Definition sub_vars (text : string) : list string := sub_vars_go Outside text.

(** The logical name in an [Fn::GetAtt] argument ["Name.Attribute"]. *)
Definition getatt_resource (a : string) : string :=
  default a (head (Cidr.split_on "."%char a)).

(** Every name a value refers to. *)
Fixpoint refs (v : value) : list string :=
  match v with
  | Str _ | Bool _ | Num _ => []
  | Ref n => [n]
  | Sub text => sub_vars text
  | GetAtt a => [getatt_resource a]
  | Select _ v' | GetAZs v' => refs v'
  | Seq l => concat (map refs l)
  | Map m => map_fold (λ _ v' acc, refs v' ++ acc) [] m
  end.

Definition resource_refs (r : resource) : list string :=
  option_list (DependsOn r) ++ refs (Map (Properties r)).

Definition output_refs (o : output) : list string :=
  refs (Value o) ++ refs (Map (Export o)).

Definition template_refs (t : template) : list string :=
  map_fold (λ _ r acc, resource_refs r ++ acc) [] (Resources t)
  ++ map_fold (λ _ o acc, output_refs o ++ acc) [] (Outputs t).

(** The pseudo parameters CloudFormation defines for every stack. *)
Definition pseudo_parameters : list string :=
  ["AWS::Region"; "AWS::StackName"].

Definition resolvesb (t : template) (n : string) : bool :=
  bool_decide (is_Some (Resources t !! n))
  || bool_decide (n ∈ pseudo_parameters).

(** The route tables a subnet is associated with. *)
Definition route_tables_of (t : template) (sn : string) : list string :=
  omap (λ x,
      match Properties x.2 !! "SubnetId", Properties x.2 !! "RouteTableId" with
      | Some (Ref s), Some (Ref rt) =>
          if bool_decide (s = sn) then Some rt else None
      | _, _ => None
      end)
    (resources_of t SubnetRouteTableAssociation).

(** The default routes of a route table: the target property and the
    resource it refers to. *)
Definition default_routes (t : template) (rt : string)
    : list (string * string) :=
  omap (λ x,
      if refers x.2 "RouteTableId" rt
      then match Properties x.2 !! "DestinationCidrBlock",
                 Properties x.2 !! "NatGatewayId",
                 Properties x.2 !! "GatewayId" with
           | Some (Str "0.0.0.0/0"), Some (Ref n), None =>
               Some ("NatGatewayId", n)
           | Some (Str "0.0.0.0/0"), None, Some (Ref g) =>
               Some ("GatewayId", g)
           | _, _, _ => None
           end
      else None)
    (resources_of t Route).

(** The subnet a NAT gateway is placed in. *)
Definition nat_subnets (t : template) : list string :=
  omap (λ x, match Properties x.2 !! "SubnetId" with
             | Some (Ref sn) => Some sn
             | _ => None
             end)
       (resources_of t NatGateway).

Definition type_of (t : template) (n : string) : option string :=
  Type_ <$> Resources t !! n.

(** A subnet's way out: the route table [rt] it is associated with and
    the target of that table's default route. The test holds when the
    subnet has exactly one association, to a declared route table, whose
    one default route goes to a gateway of the expected type. *)
Definition way_out (t : template) (sn : string)
    : option (string * string * string) :=
  match route_tables_of t sn with
  | [rt] =>
      match default_routes t rt with
      | [(target, to)] => Some (rt, target, to)
      | _ => None
      end
  | _ => None
  end.

Definition one_way_outb (t : template) (sn : string) : bool :=
  match way_out t sn with
  | Some (rt, target, to) =>
      bool_decide (type_of t rt = Some RouteTable)
      && bool_decide
           ((target = "GatewayId" ∧ type_of t to = Some InternetGateway)
            ∨ (target = "NatGatewayId" ∧ type_of t to = Some NatGateway))
  | None => false
  end.

(** The names under which a stack called [StackName] exports the outputs
    of a template. *)
Definition export_names (StackName : string) (t : template) : list string :=
  omap (export_name StackName) (map_to_list (Outputs t)).*2.

(** The suffixes the two templates append to the stack name. *)
Definition suffixes : list string :=
  ["-Subnet1"; "-Subnet2"; "-SecurityGroup"; "-VPC"].

Fixpoint last_char (s : string) : option Ascii.ascii :=
  match s with
  | EmptyString => None
  | String c EmptyString => Some c
  | String _ s' => last_char s'
  end.

End CfnGraph.

(** ** The graph of the pipeline *)

Module PipelineGraph.
Import Sdk Notebook.

(** The parameters the steps of a pipeline are built from. *)
Definition used_parameters (p : Pipeline.t) : list parameter :=
  s ← Pipeline.steps p;
  omap (λ a, match a with Param q => Some q | _ => None end) (step_args s).

(** The steps are listed in an order in which every step comes after the
    steps it reads from, under names not used before ([seen] holds the
    names of the steps already passed). *)
Fixpoint topologicalb (seen : list string) (steps : list step) : bool :=
  match steps with
  | [] => true
  | s :: rest =>
      forallb (λ n, bool_decide (n ∈ seen)) (referenced_steps s)
      && bool_decide (step_name s ∉ seen)
      && topologicalb (step_name s :: seen) rest
  end.

(** The parameter overrides of the [start] calls. *)
Definition start_overrides (cs : list call) : list (gmap string pval) :=
  omap (λ c, match c with start ov => Some ov | _ => None end) cs.

(** [str(int(time.time()))] is a run of decimal digits. *)
Definition is_decimal (s : string) : bool :=
  match Cidr.decimal s with
  | Some _ => true
  | None => false
  end.

End PipelineGraph.

(** ** The processing job of module 3 *)

Module FeatureEngineering.
Import Sdk.

Section cells.
Variable role : string.
Variable s3_bucket_name : string.

Definition s3_key_prefix : string := "end-to-end-ml".

Definition dataset_url : string :=
  "https://archive.ics.uci.edu/ml/machine-learning-databases/00601/ai4i2020.csv".
Definition raw_data_file_name : string :=
  "predictive_maintenance_raw_data_header.csv".

Definition raw_data_key : string := s3_key_prefix +:+ "/data/raw".

(** [Session.upload_data(path, bucket, key_prefix)] puts the file under
    the key [key_prefix/<file name>] and returns its S3 URI. *)
Definition upload_data (file bucket key_prefix : string) : string :=
  "s3://" +:+ bucket +:+ "/" +:+ key_prefix +:+ "/" +:+ file.

Definition uploaded : string :=
  upload_data raw_data_file_name s3_bucket_name raw_data_key.

Definition sklearn_processor : SKLearnProcessor.t :=
  {| SKLearnProcessor.role := role;
     SKLearnProcessor.instance_type := Lit "ml.m5.large";
     SKLearnProcessor.instance_count := IntLit 1;
     SKLearnProcessor.framework_version := "0.20.0" |}.

Definition base_job_name : string := "sm-feature-engineering".

Definition raw_data_path : string :=
  "s3://" +:+ s3_bucket_name +:+ "/" +:+ s3_key_prefix +:+ "/data/raw/".
Definition train_data_path : string :=
  "s3://" +:+ s3_bucket_name +:+ "/" +:+ s3_key_prefix
          +:+ "/data/preprocessed/train/".
Definition val_data_path : string :=
  "s3://" +:+ s3_bucket_name +:+ "/" +:+ s3_key_prefix
          +:+ "/data/preprocessed/val/".
Definition test_data_path : string :=
  "s3://" +:+ s3_bucket_name +:+ "/" +:+ s3_key_prefix
          +:+ "/data/preprocessed/test/".
Definition model_path : string :=
  "s3://" +:+ s3_bucket_name +:+ "/" +:+ s3_key_prefix +:+ "/output/sklearn/".

(** The call [sklearn_processor.run(code=..., inputs=..., outputs=...,
    arguments=...)], as the step that a pipeline would make of the same
    arguments. *)
Definition run : ProcessingStep.t :=
  {| ProcessingStep.name := base_job_name;
     ProcessingStep.code := "source_dir/preprocessor.py";
     ProcessingStep.processor := sklearn_processor;
     ProcessingStep.inputs :=
       [ {| ProcessingInput.input_name := "raw_data";
            ProcessingInput.source := Lit raw_data_path;
            ProcessingInput.destination := "/opt/ml/processing/input" |} ];
     ProcessingStep.outputs :=
       [ {| ProcessingOutput.output_name := "train_data";
            ProcessingOutput.source := "/opt/ml/processing/train";
            ProcessingOutput.destination := Lit train_data_path |};
         {| ProcessingOutput.output_name := "val_data";
            ProcessingOutput.source := "/opt/ml/processing/val";
            ProcessingOutput.destination := Lit val_data_path |};
         {| ProcessingOutput.output_name := "test_data";
            ProcessingOutput.source := "/opt/ml/processing/test";
            ProcessingOutput.destination := Lit test_data_path |};
         {| ProcessingOutput.output_name := "model";
            ProcessingOutput.source := "/opt/ml/processing/model";
            ProcessingOutput.destination := Lit model_path |} ];
     ProcessingStep.job_arguments :=
       [Lit "--train-test-split-ratio"; Lit "0.2"] |}.

Definition validation_features_key_prefix : string :=
  s3_key_prefix +:+ "/data/preprocessed/val/val_features.csv".

(** The object [download_data(path, bucket, key_prefix)] fetches. *)
Definition downloaded : string :=
  "s3://" +:+ s3_bucket_name +:+ "/" +:+ validation_features_key_prefix.

End cells.

(** A processing job as the service receives it: every argument replaced
    by its value. *)
Record job := {
  instance_type : option pval;
  instance_count : option pval;
  framework_version : string;
  inputs : list (string * option pval * string);
  outputs : list (string * string * option pval);
  arguments : list (option pval)
}.

Definition job_of (overrides : gmap string pval) (s : ProcessingStep.t) : job :=
  let p := ProcessingStep.processor s in
  {| instance_type := plain_value overrides (SKLearnProcessor.instance_type p);
     instance_count := plain_value overrides (SKLearnProcessor.instance_count p);
     framework_version := SKLearnProcessor.framework_version p;
     inputs :=
       (λ i, (ProcessingInput.input_name i,
              plain_value overrides (ProcessingInput.source i),
              ProcessingInput.destination i)) <$> ProcessingStep.inputs s;
     outputs :=
       (λ o, (ProcessingOutput.output_name o,
              ProcessingOutput.source o,
              plain_value overrides (ProcessingOutput.destination o)))
         <$> ProcessingStep.outputs s;
     arguments := plain_value overrides <$> ProcessingStep.job_arguments s |}.

End FeatureEngineering.

(* ===================================================================== *)
(** * Part II. Properties                                                 *)
(* ===================================================================== *)

Import Py Lambda.

Section lambda_props.
Variable rt : runtime.

Lemma py_index_first n : py_index (Z.of_nat (S n)) 0 = Some 0%nat.
Proof.
  unfold py_index.
  replace (0 <? Z.of_nat (S n)) with true by (symmetry; apply Z.ltb_lt; lia).
  reflexivity.
Qed.

Lemma py_getitem_dict d k v :
  d !! k = Some v → py_getitem (PDict d) (PStr k) = inr v.
Proof. intros H. cbn. unfold dict_getitem. by rewrite H. Qed.

Lemma py_getitem_first x l : py_getitem (PList (x :: l)) (PInt 0) = inr x.
Proof. cbn [py_getitem as_index length]. by rewrite py_index_first. Qed.

(** The subscripts of Python on a few values. *)
Lemma py_getitem_examples :
  py_getitem (PStr EmptyString) (PStr "predictions") = inl TypeError
  ∧ py_getitem (PStr "null") (PStr "predictions") = inl TypeError
  ∧ py_getitem (PStr "null") (PInt (-1)) = inr (PStr "l")
  ∧ py_getitem (PList [PInt 7; PInt 8]) (PInt (-2)) = inr (PInt 7)
  ∧ py_getitem (PList [PInt 7; PInt 8]) (PBool true) = inr (PInt 8)
  ∧ py_getitem (PList []) (PInt 0) = inl IndexError
  ∧ py_getitem (PDict ∅) (PStr "score") = inl (KeyError (PStr "score"))
  ∧ py_getitem PNone (PInt 0) = inl TypeError.
Proof. split_and!; reflexivity. Qed.

#[local] Arguments py_getitem : simpl never.

(** How [build_response] ends when the body it is given has a
    [predictions[0]['score']], and when it is given a string. *)
Lemma build_response_returns status_code response_body d first rest score :
  response_body = PDict d →
  d !! "predictions" = Some (PList (PDict first :: rest)) →
  first !! "score" = Some score →
  build_response rt status_code response_body =
    ([Stdout (py_str rt status_code); Stdout (py_str rt response_body)],
     inr (PDict {[ "statusCode" := status_code;
                   "body" := PStr (py_str rt score);
                   "headers" := PDict headers ]})).
Proof.
  intros -> Hp Hs. unfold build_response.
  rewrite (py_getitem_dict _ _ _ Hp). cbn.
  rewrite py_getitem_first. cbn.
  rewrite (py_getitem_dict _ _ _ Hs). reflexivity.
Qed.

Lemma build_response_str_raises status_code s :
  build_response rt status_code (PStr s) =
    ([Stdout (py_str rt status_code); Stdout (py_str rt (PStr s))], inl TypeError).
Proof. reflexivity. Qed.

Lemma py_eq_str_true v s : py_eq_str v s = true ↔ v = PStr s.
Proof.
  destruct v; cbn; try (split; [discriminate | congruence]).
  rewrite bool_decide_eq_true. split; congruence.
Qed.

Lemma py_eq_str_false v s : py_eq_str v s = false ↔ v ≠ PStr s.
Proof.
  rewrite <- py_eq_str_true. destruct (py_eq_str v s); split; congruence.
Qed.

(** C4. An event without a ['requestContext'] key: the handler prints the
    event and returns [None]; no response dictionary is built and the
    endpoint is not called, whatever the event's ['httpMethod']. *)
Theorem lambda_handler_without_requestContext event context :
  event !! "requestContext" = None →
  lambda_handler rt event context =
    ([Stdout ("Received event: " +:+ json_dumps rt (PDict event))], inr PNone).
Proof.
  intros H. unfold lambda_handler.
  rewrite bool_decide_eq_false_2; [reflexivity |].
  rewrite H. intros [? ?]; discriminate.
Qed.

(** C2 (as the code behaves). An event with a ['requestContext'] key and
    method OPTIONS: [build_response(200, '')] prints its arguments and
    then raises [TypeError] when it subscripts the empty string with
    ['predictions']; no response is returned. *)
Theorem lambda_handler_options_raises event context :
  is_Some (event !! "requestContext") →
  event !! "httpMethod" = Some (PStr "OPTIONS") →
  lambda_handler rt event context =
    ([Stdout ("Received event: " +:+ json_dumps rt (PDict event));
      Stdout (py_str rt (PInt 200)); Stdout (py_str rt (PStr EmptyString))],
     inl TypeError).
Proof.
  intros Hrc Hm. unfold lambda_handler, dict_getitem.
  rewrite bool_decide_eq_true_2 by done. rewrite Hm. reflexivity.
Qed.

(** C3 (as the code behaves). An event with a ['requestContext'] key and
    a method other than OPTIONS and POST: [build_response(405, 'null')]
    prints its arguments and then raises [TypeError] when it subscripts
    the string ['null'] with ['predictions']; no 405 response is
    returned. *)
Theorem lambda_handler_other_method_raises event context method :
  is_Some (event !! "requestContext") →
  event !! "httpMethod" = Some method →
  method ≠ PStr "OPTIONS" →
  method ≠ PStr "POST" →
  lambda_handler rt event context =
    ([Stdout ("Received event: " +:+ json_dumps rt (PDict event));
      Stdout (py_str rt (PInt 405)); Stdout (py_str rt (PStr "null"))],
     inl TypeError).
Proof.
  intros Hrc Hm Ho Hp. unfold lambda_handler, dict_getitem.
  rewrite bool_decide_eq_true_2 by done. rewrite Hm. cbn.
  apply py_eq_str_false in Ho, Hp. rewrite Ho. cbn. rewrite Hp.
  reflexivity.
Qed.

(** C1. An event with a ['requestContext'] key, method POST and a
    ['body'] field [b], for any [b] at all: the handler calls the endpoint
    exactly once, with [EndpointName = ENDPOINT_NAME],
    [ContentType = 'text/csv'] and [Body = b]; and when the endpoint's
    reply parses to a JSON object whose ['predictions'] array starts with
    an object holding a ['score'], the handler returns a response with
    status code 200, the CORS headers, and body [str(score)]. *)
Theorem lambda_handler_post event context b :
  is_Some (event !! "requestContext") →
  event !! "httpMethod" = Some (PStr "POST") →
  event !! "body" = Some b →
  endpoint_calls (effects (lambda_handler rt event context)) =
    [InvokeEndpoint ENDPOINT_NAME "text/csv" b]
  ∧ ∀ resp text d first rest score,
      invoke_endpoint rt ENDPOINT_NAME "text/csv" b = inr resp →
      read_decode rt resp = inr text →
      json_loads rt text = inr (PDict d) →
      d !! "predictions" = Some (PList (PDict first :: rest)) →
      first !! "score" = Some score →
      outcome (lambda_handler rt event context) =
        inr (PDict {[ "statusCode" := PInt 200;
                      "body" := PStr (py_str rt score);
                      "headers" := PDict headers ]}).
Proof.
  intros Hrc Hm Hb. unfold lambda_handler, dict_getitem.
  rewrite bool_decide_eq_true_2 by done. rewrite Hm, Hb. cbn.
  split.
  - destruct (invoke_endpoint rt _ _ b) as [e|resp]; cbn; [reflexivity |].
    destruct (read_decode rt resp) as [e|text]; cbn; [reflexivity |].
    destruct (json_loads rt text) as [e|result]; cbn; [reflexivity |].
    destruct (py_getitem result _) as [e|preds]; cbn; [reflexivity |].
    destruct (py_getitem preds _) as [e|fst]; cbn; [reflexivity |].
    destruct (py_getitem fst _) as [e|score]; cbn; reflexivity.
  - intros resp text d first rest score Hi Hr Hj Hp Hs.
    rewrite Hi. cbn. rewrite Hr. cbn. rewrite Hj. cbn.
    rewrite (py_getitem_dict _ _ _ Hp). cbn.
    rewrite py_getitem_first. cbn.
    rewrite (py_getitem_dict _ _ _ Hs). reflexivity.
Qed.

End lambda_props.

(** *** The handler on concrete events *)

(** A direct invocation (no ['requestContext']) returns [None]. *)
Lemma lambda_handler_without_requestContext_run :
  Fixture.direct_event !! "requestContext" = None
  ∧ Fixture.run Fixture.direct_event PNone =
      ([Stdout "Received event: <json>"], inr PNone).
Proof.
  split; [vm_compute; reflexivity |].
  apply (lambda_handler_without_requestContext Fixture.world
           Fixture.direct_event PNone).
  vm_compute; reflexivity.
Defined.

(** An OPTIONS request ends in [TypeError]. *)
Lemma lambda_handler_options_run :
  Fixture.run Fixture.options_event PNone =
    ([Stdout "Received event: <json>"; Stdout "200"; Stdout EmptyString],
     inl TypeError).
Proof.
  apply (lambda_handler_options_raises Fixture.world
           Fixture.options_event PNone).
  - exists (PDict ∅). vm_compute; reflexivity.
  - vm_compute; reflexivity.
Defined.

(** A GET request ends in [TypeError]. *)
Lemma lambda_handler_get_run :
  Fixture.run Fixture.get_event PNone =
    ([Stdout "Received event: <json>"; Stdout "405"; Stdout "null"],
     inl TypeError).
Proof.
  apply (lambda_handler_other_method_raises Fixture.world
           Fixture.get_event PNone (PStr "GET")).
  - exists (PDict ∅). vm_compute; reflexivity.
  - vm_compute; reflexivity.
  - discriminate.
  - discriminate.
Defined.

(** A POST request is forwarded and answered with the score. *)
Lemma lambda_handler_post_run :
  endpoint_calls (effects (Fixture.run Fixture.post_event PNone)) =
    [InvokeEndpoint ENDPOINT_NAME "text/csv"
                    (PStr "L,298.4,308.2,1582,70.7,216")]
  ∧ outcome (Fixture.run Fixture.post_event PNone) =
      inr (PDict {[ "statusCode" := PInt 200;
                    "body" := PStr "0.5";
                    "headers" := PDict headers ]}).
Proof.
  destruct (lambda_handler_post Fixture.world
              Fixture.post_event PNone
              (PStr "L,298.4,308.2,1582,70.7,216")) as [Hcall Hret].
  - exists (PDict ∅). vm_compute; reflexivity.
  - vm_compute; reflexivity.
  - vm_compute; reflexivity.
  - split; [exact Hcall |].
    apply (Hret Fixture.reply_text Fixture.reply_text
                {[ "predictions" := PList [PDict {[ "score" := PFloat 1 (-1) ]}] ]}
                {[ "score" := PFloat 1 (-1) ]} [] (PFloat 1 (-1)));
      vm_compute; reflexivity.
Defined.

(** ** CIDR arithmetic *)

Section cidr_props.
Import Cidr.

Lemma wfb_wf c : wfb c = true → wf c.
Proof. unfold wfb, wf. rewrite !andb_true_iff. lia. Qed.

(** Inside a block, an address agrees with the block's address on every
    shift that drops at least the host bits. *)
Lemma contains_shiftr c a n :
  wf c → contains c a → 32 - plen c ≤ n → a ≫ n = addr c ≫ n.
Proof.
  intros [_ Hp] [_ Heq] Hn.
  replace n with ((32 - plen c) + (n - (32 - plen c))) by lia.
  rewrite <- !Z.shiftr_shiftr by lia. by rewrite Heq.
Qed.

Lemma subsetb_sound c1 c2 :
  wf c1 → wf c2 → subsetb c1 c2 = true → subset c1 c2.
Proof.
  intros Hw1 Hw2. unfold subsetb. rewrite andb_true_iff.
  intros [Hle Heq] a Ha. apply Z.leb_le in Hle. apply Z.eqb_eq in Heq.
  split; [apply Ha |].
  rewrite (contains_shiftr c1 a) by (done || lia). done.
Qed.

Lemma disjointb_sound c1 c2 :
  wf c1 → wf c2 → disjointb c1 c2 = true → disjoint c1 c2.
Proof.
  intros Hw1 Hw2. unfold disjointb. intros Hne a [H1 H2].
  apply negb_true_iff, Z.eqb_neq in Hne. apply Hne.
  rewrite <- (contains_shiftr c1 a), <- (contains_shiftr c2 a)
    by (done || lia).
  done.
Qed.

Lemma contains_addr c : wf c → contains c (addr c).
Proof. intros [Ha _]. by split. Qed.

(** The parser on the blocks of the templates and on malformed text. *)
Lemma parse_examples :
  parse "10.0.0.0/16" = Some {| addr := 167772160; plen := 16 |}
  ∧ parse "10.0.2.0/24" = Some {| addr := 167772672; plen := 24 |}
  ∧ parse "0.0.0.0/0" = Some {| addr := 0; plen := 0 |}
  ∧ parse "10.0.0.256/24" = None
  ∧ parse "10.0.0.0/33" = None
  ∧ parse "10.0.0/24" = None
  ∧ parse "10.0.0.0" = None
  ∧ parse "10.0..0/24" = None.
Proof. split_and!; reflexivity. Qed.

(** The first and last address of 10.0.1.0/24 are in the block, the
    next address is not. *)
Lemma contains_examples :
  let c := {| addr := 167772416; plen := 24 |} in
  contains c 167772416 ∧ contains c 167772671 ∧ ¬ contains c 167772672.
Proof.
  cbn. split_and!; [by vm_compute; split_and! .. |].
  intros [_ H]. vm_compute in H. discriminate.
Qed.

End cidr_props.

(** ** The networking templates *)

Section networking_props.
Import Cfn Networking.

Lemma elem_of_resources_of t ty n r :
  (n, r) ∈ resources_of t ty ↔ Resources t !! n = Some r ∧ Type_ r = ty.
Proof.
  unfold resources_of.
  by rewrite elem_of_map_to_list, map_lookup_filter_Some.
Qed.

Lemma has_type_resources_of t ty n :
  has_type t ty n ↔ ∃ r, (n, r) ∈ resources_of t ty.
Proof.
  unfold has_type. setoid_rewrite elem_of_resources_of.
  destruct (Resources t !! n) as [r|]; cbn; split.
  - intros [= <-]. by exists r.
  - by intros (r' & [= <-] & <-).
  - done.
  - by intros (? & ? & _).
Qed.

Lemma declares_names_of t ty : declares t ty ↔ names_of t ty ≠ [].
Proof.
  unfold declares, names_of. setoid_rewrite has_type_resources_of.
  destruct (resources_of t ty) as [|[n r] l]; cbn; split.
  - intros (n & r & H). by apply elem_of_nil in H.
  - done.
  - done.
  - intros _. exists n, r. left.
Qed.

Lemma elem_of_names_of t ty n : n ∈ names_of t ty ↔ has_type t ty n.
Proof.
  rewrite has_type_resources_of. unfold names_of.
  rewrite list_elem_of_fmap. split.
  - intros ([n' r] & -> & H). by exists r.
  - intros (r & H). by exists (n, r).
Qed.

Lemma vpc_okb_sound r :
  vpc_okb r = true →
  Properties r !! "CidrBlock" = Some (Str "10.0.0.0/16")
  ∧ cidr_of r = Some vpc_block.
Proof.
  unfold vpc_okb, cidr_of.
  destruct (Properties r !! "CidrBlock") as [[s| | | | | | | | |]|]; try done.
  intros ->%bool_decide_eq_true. split; [done | by vm_compute].
Qed.

Lemma subnet_okb_sound r :
  subnet_okb r = true →
  ∃ c, cidr_of r = Some c ∧ Cidr.wf c ∧ Cidr.plen c = 24
       ∧ Cidr.subset c vpc_block.
Proof.
  unfold subnet_okb. destruct (cidr_of r) as [c|]; [|done].
  rewrite !andb_true_iff. intros [[Hw Hp] Hs]. apply wfb_wf in Hw.
  exists c. split_and!; [done | done | by apply Z.eqb_eq |].
  apply subsetb_sound; [done | by vm_compute | done].
Qed.

(** The executable layout test is sound for the layout property. *)
Lemma cidr_layoutb_sound t : cidr_layoutb t = true → cidr_layout t.
Proof.
  unfold cidr_layoutb, cidr_layout. rewrite !andb_true_iff.
  setoid_rewrite forallb_forall. intros [[Hv Hs] Hd]. split_and!.
  - intros n r Hn Hty. apply vpc_okb_sound.
    apply (Hv (n, r)), list_elem_of_In, elem_of_resources_of. done.
  - intros n r Hn Hty.
    destruct (subnet_okb_sound r) as (c & ? & ? & ? & ?); [|by exists c].
    apply (Hs (n, r)), list_elem_of_In, elem_of_resources_of. done.
  - intros n1 n2 r1 r2 c1 c2 Hn1 Hn2 Ht1 Ht2 Hne Hc1 Hc2.
    assert (In (n1, r1) (resources_of t Subnet)) as H1
      by by apply list_elem_of_In, elem_of_resources_of.
    assert (In (n2, r2) (resources_of t Subnet)) as H2
      by by apply list_elem_of_In, elem_of_resources_of.
    pose proof (Hd _ H1) as Hd1. rewrite forallb_forall in Hd1.
    specialize (Hd1 _ H2). unfold apartb in Hd1. cbn in Hd1.
    rewrite Hc1, Hc2, bool_decide_eq_false_2 in Hd1 by done.
    destruct (subnet_okb_sound r1 (Hs _ H1)) as (c1' & E1 & W1 & _).
    destruct (subnet_okb_sound r2 (Hs _ H2)) as (c2' & E2 & W2 & _).
    cbn in E1, E2. rewrite Hc1 in E1. rewrite Hc2 in E2.
    injection E1 as <-. injection E2 as <-.
    by apply disjointb_sound.
Qed.

(** The subnets each template declares, with their blocks. *)
Lemma vpc_mode_subnets :
  (λ x, (x.1, cidr_of x.2)) <$> resources_of vpc_mode Subnet =
    [("SageMakerPublicSubnet1", Some {| Cidr.addr := 167772672; Cidr.plen := 24 |});
     ("SageMakerPrivateSubnet1", Some {| Cidr.addr := 167772160; Cidr.plen := 24 |});
     ("SageMakerPrivateSubnet2", Some {| Cidr.addr := 167772416; Cidr.plen := 24 |})].
Proof. vm_compute. reflexivity. Qed.

Lemma direct_mode_subnets :
  (λ x, (x.1, cidr_of x.2)) <$> resources_of direct_mode Subnet =
    [("SageMakerPublicSubnet1", Some {| Cidr.addr := 167772160; Cidr.plen := 24 |});
     ("SageMakerPublicSubnet2", Some {| Cidr.addr := 167772416; Cidr.plen := 24 |})].
Proof. vm_compute. reflexivity. Qed.

(** C6. In both networking templates the VPC's CIDR block is the literal
    10.0.0.0/16, every declared subnet has a /24 block all of whose
    addresses lie in 10.0.0.0/16, and the blocks of two different subnets
    of a template have no address in common. Each template declares one
    VPC; VPC mode declares three subnets and direct mode two. *)
Theorem networking_cidr_layout :
  (cidr_layout vpc_mode ∧ names_of vpc_mode VPC = ["SageMakerVPC"]
     ∧ length (names_of vpc_mode Subnet) = 3%nat)
  ∧ (cidr_layout direct_mode ∧ names_of direct_mode VPC = ["SageMakerVPC"]
     ∧ length (names_of direct_mode Subnet) = 2%nat).
Proof.
  split; (split; [apply cidr_layoutb_sound; by vm_compute | by vm_compute]).
Qed.

(** *** Resources *)

Ltac by_lookup := unfold has_type; vm_compute; reflexivity.

Lemma refers_spec r property target :
  refers r property target = true ↔
  Properties r !! property = Some (Ref target).
Proof.
  unfold refers.
  destruct (Properties r !! property) as [[]|];
    try (split; [discriminate | congruence]).
  rewrite bool_decide_eq_true. split; congruence.
Qed.

Lemma private_route_tableb_sound t rt :
  private_route_tableb t rt = true → private_route_table t rt.
Proof.
  unfold private_route_tableb, private_route_table.
  rewrite andb_true_iff, bool_decide_eq_true, forallb_forall.
  intros [Hty Hall]. split; [done |].
  intros n r Hn Hroute Hrt.
  specialize (Hall (n, r)). cbn in Hall.
  apply refers_spec in Hrt. rewrite Hrt in Hall. cbn in Hall.
  eapply bool_decide_eq_true_1, Hall.
  by apply list_elem_of_In, elem_of_resources_of.
Qed.

Lemma vpc_mode_private_route_table :
  private_route_table vpc_mode "SageMakerPrivateRouteTable".
Proof. apply private_route_tableb_sound. vm_compute. reflexivity. Qed.

Lemma vpc_mode_nat_path : nat_path vpc_mode.
Proof.
  exists "SageMakerPrivateRouteTable", "SageMakerNATGateway".
  split_and!; [apply vpc_mode_private_route_table | by_lookup |].
  exists "SageMakerPrivateRoute". eexists.
  split_and!; vm_compute; reflexivity.
Qed.

Lemma vpc_mode_full_network : full_network vpc_mode.
Proof.
  unfold full_network. rewrite !declares_names_of.
  split_and!; [by vm_compute .. | apply vpc_mode_nat_path | by vm_compute].
Qed.

Lemma direct_mode_no_nat_gateway : ¬ declares direct_mode NatGateway.
Proof. rewrite declares_names_of. by vm_compute. Qed.

Lemma direct_mode_no_security_group : ¬ declares direct_mode SecurityGroup.
Proof. rewrite declares_names_of. by vm_compute. Qed.

(** C5 as stated fails: the direct-mode template declares no NAT gateway
    (and no security group), so not both templates declare the full set
    of resources. *)
Lemma full_network_not_both :
  ¬ (full_network vpc_mode ∧ full_network direct_mode).
Proof.
  intros [_ (_ & _ & _ & (rt & nat & _ & Hnat & _) & _)].
  apply direct_mode_no_nat_gateway. by exists nat.
Qed.

(** C5, amended. The VPC-mode template declares a VPC, subnets, route
    tables (the private and the public one), a NAT path (the NAT gateway
    and a default route to it from the private route table) and a
    security group. The direct-mode template declares a VPC, subnets and
    one route table, [SageMakerPublicRouteTable], whose one route is a
    default route to the Internet gateway; it declares no NAT gateway and
    no security group. *)
Theorem networking_resources :
  full_network vpc_mode
  ∧ (∀ n, has_type vpc_mode RouteTable n ↔
          n ∈ ["SageMakerPublicRouteTable"; "SageMakerPrivateRouteTable"])
  ∧ private_route_table vpc_mode "SageMakerPrivateRouteTable"
  ∧ has_type vpc_mode NatGateway "SageMakerNATGateway"
  ∧ default_route vpc_mode "SageMakerPrivateRouteTable" "NatGatewayId"
                  "SageMakerNATGateway"
  ∧ declares direct_mode VPC ∧ declares direct_mode Subnet
  ∧ declares direct_mode RouteTable
  ∧ (∀ n, has_type direct_mode RouteTable n ↔
          n = "SageMakerPublicRouteTable")
  ∧ (∀ n, has_type direct_mode Route n ↔ n = "SageMakerPublicRoute")
  ∧ has_type direct_mode InternetGateway "SageMakerInternetGateway"
  ∧ default_route direct_mode "SageMakerPublicRouteTable" "GatewayId"
                  "SageMakerInternetGateway"
  ∧ ¬ declares direct_mode NatGateway
  ∧ ¬ declares direct_mode SecurityGroup.
Proof.
  split_and!.
  - apply vpc_mode_full_network.
  - intros n. rewrite <- elem_of_names_of.
    by replace (names_of vpc_mode RouteTable)
      with ["SageMakerPublicRouteTable"; "SageMakerPrivateRouteTable"]
      by (vm_compute; reflexivity).
  - apply vpc_mode_private_route_table.
  - by_lookup.
  - exists "SageMakerPrivateRoute". eexists.
    split_and!; vm_compute; reflexivity.
  - rewrite declares_names_of. by vm_compute.
  - rewrite declares_names_of. by vm_compute.
  - rewrite declares_names_of. by vm_compute.
  - intros n. rewrite <- elem_of_names_of.
    replace (names_of direct_mode RouteTable)
      with ["SageMakerPublicRouteTable"] by (vm_compute; reflexivity).
    apply list_elem_of_singleton.
  - intros n. rewrite <- elem_of_names_of.
    replace (names_of direct_mode Route)
      with ["SageMakerPublicRoute"] by (vm_compute; reflexivity).
    apply list_elem_of_singleton.
  - by_lookup.
  - exists "SageMakerPublicRoute". eexists.
    split_and!; vm_compute; reflexivity.
  - apply direct_mode_no_nat_gateway.
  - apply direct_mode_no_security_group.
Qed.


(** *** Outputs *)

Lemma fn_sub_StackName StackName :
  fn_sub StackName "${AWS::StackName}-VPC" = StackName +:+ "-VPC"
  ∧ fn_sub StackName "no variable here" = "no variable here"
  ∧ fn_sub StackName "a-${AWS::StackName}-b-${AWS::StackName}" =
      "a-" +:+ (StackName +:+ ("-b-" +:+ (StackName +:+ EmptyString))).
Proof. split_and!; reflexivity. Qed.


Lemma private_route_tableb_spec t rt :
  private_route_tableb t rt = true ↔ private_route_table t rt.
Proof.
  split; [apply private_route_tableb_sound |].
  intros [Hty Hall]. unfold private_route_tableb.
  rewrite andb_true_iff, bool_decide_eq_true, forallb_forall.
  split; [done |]. intros [n r] [Hn Hr]%list_elem_of_In%elem_of_resources_of.
  cbn. destruct (refers r "RouteTableId" rt) eqn:Hrt; [cbn | done].
  apply bool_decide_eq_true, (Hall n r Hn Hr), refers_spec, Hrt.
Qed.

Lemma private_subnet_spec t n :
  private_subnet t n ↔ n ∈ private_subnets t.
Proof.
  unfold private_subnet, private_subnets. rewrite list_elem_of_omap. split.
  - intros (Hty & a & r & rt & Ha & Hr & Hs & Hrt & Hpriv).
    exists (a, r). split; [by apply elem_of_resources_of |].
    cbn. rewrite Hs, Hrt.
    apply private_route_tableb_spec in Hpriv. rewrite Hpriv.
    by rewrite bool_decide_eq_true_2.
  - intros ([a r] & [Ha Hr]%elem_of_resources_of & Hf). cbn in Hf.
    destruct (Properties r !! "SubnetId") as [[]|] eqn:Hs; try done.
    destruct (Properties r !! "RouteTableId") as [[]|] eqn:Hrt; try done.
    destruct (private_route_tableb t _) eqn:Hpriv; [|done].
    cbn in Hf. case_bool_decide as Hty; [|done].
    injection Hf as <-. split; [done |].
    exists a, r. eexists. split_and!; try done.
    by apply private_route_tableb_spec.
Qed.

(** The private subnets of the VPC-mode template are exactly these
    two. *)
Lemma vpc_mode_private_subnets :
  private_subnets vpc_mode =
    ["SageMakerPrivateSubnet1"; "SageMakerPrivateSubnet2"].
Proof. vm_compute. reflexivity. Qed.

(** The predicate is not vacuous: the public route table, with its
    default route to the Internet gateway, is not private. *)
Lemma vpc_mode_public_route_table_not_private :
  ¬ private_route_table vpc_mode "SageMakerPublicRouteTable".
Proof. rewrite <- private_route_tableb_spec. vm_compute. discriminate. Qed.


End networking_props.

(** ** The pipeline notebook *)

Section notebook_props.
Import Sdk Notebook.
Variable env : session.

(** C9. The notebook declares twenty workflow parameters, with twenty
    different names, and each of them is in the parameters list given to
    [Pipeline]: the four data paths, the featurizer model path, the
    processing instance type and count, the split ratio, the seven
    XGBoost hyperparameters, the training instance type and count, the
    training output path, the deploy instance type and the approval
    status. *)
Theorem pipeline_parameters_complete :
  length (declared_parameters env) = 20%nat
  ∧ declared_parameters env ⊆ Pipeline.parameters (pipeline env)
  ∧ parameter_name <$> Pipeline.parameters (pipeline env) =
      ["raw_data_path"; "train_data_path"; "val_data_path"; "test_data_path";
       "model_path";
       "processing_instance_type"; "processing_instance_count";
       "train_test_split_ratio";
       "max_depth"; "eta"; "gamma"; "min_child_weight"; "objective";
       "num_round"; "eval_metric";
       "training_instance_type"; "training_instance_count";
       "output_path";
       "deploy_instance_type"; "model_approval_status"]
  ∧ NoDup (parameter_name <$> declared_parameters env).
Proof.
  split_and!; [reflexivity | | reflexivity |].
  - intros p Hp. unfold declared_parameters in Hp. cbn.
    set_solver.
  - cbn. apply (bool_decide_unpack _). by vm_compute.
Qed.

(** *** The training step reads the processing step's outputs *)

Lemma output_uri_processing overrides :
  output_uri overrides (processing_step env) "train_data" =
    Some (parameter_value overrides (train_data_path_param env))
  ∧ output_uri overrides (processing_step env) "val_data" =
    Some (parameter_value overrides (val_data_path_param env)).
Proof. split; reflexivity. Qed.


(** *** Approval before deployment *)

Lemma deploys_after_approval_sound cs : ∀ approved,
  deploys_after_approval approved cs = true →
  ∀ before c after,
    cs = before ++ c :: after → is_deploy c = true →
    approved = true ∨ ∃ a, a ∈ before ∧ is_approval a = true.
Proof.
  induction cs as [|c0 cs IH]; intros approved Hscan before c after Hcs Hc.
  - by destruct before.
  - cbn in Hscan. apply andb_true_iff in Hscan as [Hhere Hrest].
    destruct before as [|b before]; cbn in Hcs;
      injection Hcs as -> ->.
    + rewrite Hc in Hhere. cbn in Hhere. by left.
    + destruct (IH _ Hrest before c after eq_refl Hc)
        as [Happ | (a & Ha & Happ)].
      * apply orb_true_iff in Happ as [? | ?]; [by left |].
        right. exists b. split; [left | done].
      * right. exists a. split; [by right | done].
Qed.

(** C8. The register step takes its approval status from the
    [model_approval_status] parameter, whose default is
    ['PendingManualApproval']; an execution registers the package with
    the value of that parameter, which in the notebook's execution is the
    default; and in the notebook's sequence of calls every [deploy] is
    preceded by [update_model_package] with status ['Approved'], so the
    one deployment is made from an approved package. *)
Theorem approval_precedes_deploy :
  RegisterModel.approval_status (register_model_step env) =
    Param (ParameterString "model_approval_status" "PendingManualApproval")
  ∧ (∀ overrides,
       registered_status (pipeline env) overrides =
         Some (parameter_value overrides model_approval_status_param))
  ∧ package_status (run (take 3 (cells env))) =
      Some (VStr "PendingManualApproval")
  ∧ (∀ before c after,
       cells env = before ++ c :: after → is_deploy c = true →
       ∃ a, a ∈ before ∧ is_approval a = true)
  ∧ deployments (run (cells env)) = [Some (VStr "Approved")].
Proof.
  split_and!; [reflexivity | reflexivity | reflexivity | | reflexivity].
  intros before c after Hcs Hc.
  destruct (deploys_after_approval_sound (cells env) false eq_refl
              before c after Hcs Hc) as [? | ?]; done.
Qed.

End notebook_props.

(** ** The Lambda function: errors, and what it never does *)

Section lambda_more.
Import LambdaCases.
Variable rt : runtime.

#[local] Arguments py_getitem : simpl never.

Lemma py_getitem_inr_dict v k x :
  py_getitem v (PStr k) = inr x → ∃ d, v = PDict d ∧ d !! k = Some x.
Proof.
  destruct v as [| | | | |l|d]; try discriminate.
  unfold py_getitem, dict_getitem. cbn.
  destruct (d !! k) as [y|] eqn:E; [|discriminate].
  intros [= <-]. by exists d.
Qed.

Lemma py_getitem_first_inr v x :
  py_getitem v (PInt 0) = inr x →
  (∃ l, v = PList (x :: l)) ∨ (∃ s, v = PStr s ∧ ∃ c, x = PStr c).
Proof.
  destruct v as [| | | |s|l|d]; try discriminate.
  - unfold py_getitem. cbn [as_index].
    destruct (_ ≫= _) as [c|]; [|discriminate].
    intros [= <-]. right. exists s. split; [done | by eexists].
  - destruct l as [|y l]; [discriminate |].
    rewrite py_getitem_first. intros [= <-]. left. by exists l.
Qed.

(** The three subscripts of [build_response] together. *)
Lemma score_of_inr body score :
  score_of body = inr score ↔
  ∃ d first rest,
    body = PDict d
    ∧ d !! "predictions" = Some (PList (PDict first :: rest))
    ∧ first !! "score" = Some score.
Proof.
  unfold score_of. split.
  - destruct (py_getitem body _) as [e|preds] eqn:E1; [discriminate |].
    destruct (py_getitem preds _) as [e|fst] eqn:E2; [discriminate |].
    intros E3.
    apply py_getitem_inr_dict in E1 as (d & -> & Hd).
    apply py_getitem_inr_dict in E3 as (f & -> & Hf).
    apply py_getitem_first_inr in E2 as [[l ->] | (s & _ & c & [=])].
    by exists d, f, l.
  - intros (d & first & rest & -> & Hd & Hf).
    rewrite (py_getitem_dict _ _ _ Hd), py_getitem_first.
    by apply py_getitem_dict.
Qed.

Lemma build_response_unfold status_code body :
  build_response rt status_code body =
    ([Stdout (py_str rt status_code); Stdout (py_str rt body)],
     match score_of body with
     | inl e => inl e
     | inr score =>
         inr (PDict {[ "statusCode" := status_code;
                       "body" := PStr (py_str rt score);
                       "headers" := PDict headers ]})
     end).
Proof.
  unfold build_response, score_of. cbn.
  destruct (py_getitem body _) as [e|preds]; cbn; [done |].
  destruct (py_getitem preds _) as [e|fst]; cbn; [done |].
  destruct (py_getitem fst _) as [e|score]; cbn; done.
Qed.

(** X1. [build_response] returns exactly when its body is a dictionary
    whose ['predictions'] is a list that starts with a dictionary holding a
    ['score']; the response then carries the status code it was given,
    [str(score)] as body and the CORS headers. In every other case it
    raises. *)
Theorem build_response_returns_iff status_code body v :
  outcome (build_response rt status_code body) = inr v ↔
  ∃ d first rest score,
    body = PDict d
    ∧ d !! "predictions" = Some (PList (PDict first :: rest))
    ∧ first !! "score" = Some score
    ∧ v = PDict {[ "statusCode" := status_code;
                   "body" := PStr (py_str rt score);
                   "headers" := PDict headers ]}.
Proof.
  rewrite build_response_unfold. unfold outcome. cbn [snd]. split.
  - destruct (score_of body) as [e|score] eqn:E; [discriminate |].
    intros [= <-]. apply score_of_inr in E as (d & f & l & ? & ? & ?).
    by exists d, f, l, score.
  - intros (d & f & l & score & Hb & Hd & Hf & ->).
    assert (E : score_of body = inr score)
      by (apply score_of_inr; by exists d, f, l).
    by rewrite E.
Qed.

(** X2. Given anything but a dictionary as body - a string, [None], a
    number, a list - [build_response] prints its two arguments and raises
    [TypeError], whatever the status code. *)
Theorem build_response_not_dict status_code body :
  (∀ d, body ≠ PDict d) →
  build_response rt status_code body =
    ([Stdout (py_str rt status_code); Stdout (py_str rt body)],
     inl TypeError).
Proof.
  intros Hnd. rewrite build_response_unfold.
  destruct body; try reflexivity. by destruct (Hnd d).
Qed.

(** X3. An event with a ['requestContext'] key and no ['httpMethod'] key
    (the shape of payload format 2.0): the handler prints the event and
    raises [KeyError('httpMethod')]; the endpoint is not called. *)
Theorem lambda_handler_missing_httpMethod event context :
  is_Some (event !! "requestContext") →
  event !! "httpMethod" = None →
  lambda_handler rt event context =
    ([Stdout ("Received event: " +:+ json_dumps rt (PDict event))],
     inl (KeyError (PStr "httpMethod"))).
Proof.
  intros Hrc Hm. unfold lambda_handler, dict_getitem.
  rewrite bool_decide_eq_true_2 by done. by rewrite Hm.
Qed.

(** X4. A POST event without a ['body'] key: the handler raises
    [KeyError('body')] before it reaches the endpoint call. *)
Theorem lambda_handler_post_missing_body event context :
  is_Some (event !! "requestContext") →
  event !! "httpMethod" = Some (PStr "POST") →
  event !! "body" = None →
  lambda_handler rt event context =
    ([Stdout ("Received event: " +:+ json_dumps rt (PDict event))],
     inl (KeyError (PStr "body"))).
Proof.
  intros Hrc Hm Hb. unfold lambda_handler, dict_getitem.
  rewrite bool_decide_eq_true_2 by done. by rewrite Hm, Hb.
Qed.

(** Entering the POST branch, once the method and the body are known. *)
Ltac post_branch Hrc Hm Hb :=
  unfold lambda_handler, dict_getitem;
  rewrite bool_decide_eq_true_2 by exact Hrc;
  rewrite Hm, Hb; cbn.

(** X5. When the endpoint call raises, the exception leaves the handler
    unchanged: nothing is printed after the call and no response is
    built. *)
Theorem lambda_handler_endpoint_error event context b e :
  is_Some (event !! "requestContext") →
  event !! "httpMethod" = Some (PStr "POST") →
  event !! "body" = Some b →
  invoke_endpoint rt ENDPOINT_NAME "text/csv" b = inl e →
  lambda_handler rt event context =
    ([Stdout ("Received event: " +:+ json_dumps rt (PDict event));
      InvokeEndpoint ENDPOINT_NAME "text/csv" b],
     inl e).
Proof.
  intros Hrc Hm Hb He. post_branch Hrc Hm Hb. by rewrite He.
Qed.

(** X6. When the endpoint answers but its payload cannot be decoded or
    parsed, that exception leaves the handler unchanged; the response
    object has been printed, the parsed result has not. *)
Theorem lambda_handler_reply_error event context b resp e :
  is_Some (event !! "requestContext") →
  event !! "httpMethod" = Some (PStr "POST") →
  event !! "body" = Some b →
  invoke_endpoint rt ENDPOINT_NAME "text/csv" b = inr resp →
  read_decode rt resp = inl e
    ∨ (∃ text, read_decode rt resp = inr text ∧ json_loads rt text = inl e) →
  lambda_handler rt event context =
    ([Stdout ("Received event: " +:+ json_dumps rt (PDict event));
      InvokeEndpoint ENDPOINT_NAME "text/csv" b;
      Stdout (response_str rt resp)],
     inl e).
Proof.
  intros Hrc Hm Hb Hr He. post_branch Hrc Hm Hb. rewrite Hr. cbn.
  destruct He as [He | (text & Ht & He)].
  - by rewrite He.
  - rewrite Ht. cbn. by rewrite He.
Qed.

(** X7. A reply that parses but holds no prediction: without a
    ['predictions'] key the handler raises [KeyError('predictions')], with
    an empty ['predictions'] list it raises [IndexError]. The endpoint has
    been called by then. *)
Theorem lambda_handler_no_prediction event context b resp text d :
  is_Some (event !! "requestContext") →
  event !! "httpMethod" = Some (PStr "POST") →
  event !! "body" = Some b →
  invoke_endpoint rt ENDPOINT_NAME "text/csv" b = inr resp →
  read_decode rt resp = inr text →
  json_loads rt text = inr (PDict d) →
  d !! "predictions" = None ∨ d !! "predictions" = Some (PList []) →
  endpoint_calls (effects (lambda_handler rt event context)) =
    [InvokeEndpoint ENDPOINT_NAME "text/csv" b]
  ∧ outcome (lambda_handler rt event context) =
      inl (match d !! "predictions" with
           | None => KeyError (PStr "predictions")
           | Some _ => IndexError
           end).
Proof.
  intros Hrc Hm Hb Hr Ht Hj Hd. post_branch Hrc Hm Hb.
  rewrite Hr. cbn. rewrite Ht. cbn. rewrite Hj. cbn.
  unfold py_getitem, dict_getitem.
  destruct Hd as [-> | ->]; cbn; done.
Qed.

(** The handler, branch by branch. *)
Lemma lambda_handler_cases event context :
  (event !! "requestContext" = None
   ∧ lambda_handler rt event context =
       ([Stdout ("Received event: " +:+ json_dumps rt (PDict event))],
        inr PNone))
  ∨ (is_Some (event !! "requestContext")
     ∧ ((∃ b, event !! "httpMethod" = Some (PStr "POST")
              ∧ event !! "body" = Some b)
        ∨ (endpoint_calls (effects (lambda_handler rt event context)) = []
           ∧ ∃ e, outcome (lambda_handler rt event context) = inl e))).
Proof.
  destruct (event !! "requestContext") as [rc|] eqn:Hrc.
  2:{ left. split; [done |].
      unfold lambda_handler. rewrite Hrc.
      by rewrite bool_decide_eq_false_2 by by intros [? ?]. }
  right. split; [by eexists |].
  unfold lambda_handler, dict_getitem. rewrite Hrc.
  rewrite bool_decide_eq_true_2 by by eexists.
  destruct (event !! "httpMethod") as [m|] eqn:Hm; cbn.
  2:{ right. split; [done | by eexists]. }
  destruct (py_eq_str m "OPTIONS") eqn:Ho.
  { right. split; [done | by eexists]. }
  cbn. destruct (py_eq_str m "POST") eqn:Hp.
  2:{ right. split; [done | by eexists]. }
  apply py_eq_str_true in Hp as ->.
  destruct (event !! "body") as [b|] eqn:Hb; cbn.
  - left. by exists b.
  - right. split; [done | by eexists].
Qed.

(** X8. Whatever the event and whatever the runtime does, the handler
    calls the endpoint at most once, and only for an event with a
    ['requestContext'] key, method POST and a ['body'] field; the call is
    then to [ENDPOINT_NAME], with content type ['text/csv'] and that field
    as body. *)
Theorem lambda_handler_endpoint_calls event context :
  endpoint_calls (effects (lambda_handler rt event context)) = []
  ∨ ∃ b, is_Some (event !! "requestContext")
         ∧ event !! "httpMethod" = Some (PStr "POST")
         ∧ event !! "body" = Some b
         ∧ endpoint_calls (effects (lambda_handler rt event context)) =
             [InvokeEndpoint ENDPOINT_NAME "text/csv" b].
Proof.
  destruct (lambda_handler_cases event context)
    as [[_ ->] | [Hrc [(b & Hm & Hb) | [Hc _]]]]; [by left | | by left].
  right. exists b. split_and!; try done.
  post_branch Hrc Hm Hb.
  destruct (invoke_endpoint rt _ _ b) as [e|resp]; cbn; [done |].
  destruct (read_decode rt resp) as [e|text]; cbn; [done |].
  destruct (json_loads rt text) as [e|result]; cbn; [done |].
  destruct (py_getitem result _) as [e|preds]; cbn; [done |].
  destruct (py_getitem preds _) as [e|fst]; cbn; [done |].
  by destruct (py_getitem fst _) as [e|score].
Qed.

(** X9. Whatever the handler returns is [None] (and then the event has no
    ['requestContext'] key) or a response with status code 200 for a POST
    event: no other status code, 405 included, is ever returned. *)
Theorem lambda_handler_returns event context v :
  outcome (lambda_handler rt event context) = inr v →
  (v = PNone ∧ event !! "requestContext" = None)
  ∨ (∃ score,
       v = PDict {[ "statusCode" := PInt 200;
                    "body" := PStr (py_str rt score);
                    "headers" := PDict headers ]}
       ∧ is_Some (event !! "requestContext")
       ∧ event !! "httpMethod" = Some (PStr "POST")).
Proof.
  destruct (lambda_handler_cases event context)
    as [[Hrc ->] | [Hrc [(b & Hm & Hb) | [_ [e ->]]]]].
  - intros [= <-]. by left.
  - post_branch Hrc Hm Hb.
    destruct (invoke_endpoint rt _ _ b) as [e|resp]; cbn; [done |].
    destruct (read_decode rt resp) as [e|text]; cbn; [done |].
    destruct (json_loads rt text) as [e|result]; cbn; [done |].
    destruct (py_getitem result _) as [e|preds]; cbn; [done |].
    destruct (py_getitem preds _) as [e|fst]; cbn; [done |].
    destruct (py_getitem fst _) as [e|score]; cbn; [done |].
    intros [= <-]. right. by exists score.
  - done.
Qed.

End lambda_more.

(** *** Runs that end in an error *)

Lemma build_response_not_dict_run :
  build_response Fixture.world (PInt 405) (PStr "null") =
    ([Stdout "405"; Stdout "null"], inl TypeError).
Proof.
  apply (build_response_not_dict Fixture.world (PInt 405) (PStr "null")).
  intros d. discriminate.
Defined.

Lemma lambda_handler_missing_httpMethod_run :
  lambda_handler Fixture.world LambdaCases.v2_event PNone =
    ([Stdout "Received event: <json>"], inl (KeyError (PStr "httpMethod"))).
Proof.
  apply (lambda_handler_missing_httpMethod Fixture.world
           LambdaCases.v2_event PNone).
  - eexists. vm_compute; reflexivity.
  - vm_compute; reflexivity.
Defined.

Lemma lambda_handler_post_missing_body_run :
  lambda_handler Fixture.world LambdaCases.bodyless_event PNone =
    ([Stdout "Received event: <json>"], inl (KeyError (PStr "body"))).
Proof.
  apply (lambda_handler_post_missing_body Fixture.world
           LambdaCases.bodyless_event PNone).
  - exists (PDict ∅). vm_compute; reflexivity.
  - vm_compute; reflexivity.
  - vm_compute; reflexivity.
Defined.

Lemma lambda_handler_endpoint_error_run :
  lambda_handler
    (LambdaCases.world_of (inl LambdaCases.throttled) (inl JSONDecodeError))
    Fixture.post_event PNone =
    ([Stdout "Received event: <json>";
      InvokeEndpoint ENDPOINT_NAME "text/csv"
                     (PStr "L,298.4,308.2,1582,70.7,216")],
     inl (ClientError "ThrottlingException")).
Proof.
  apply (lambda_handler_endpoint_error
           (LambdaCases.world_of (inl LambdaCases.throttled)
                                 (inl JSONDecodeError))
           Fixture.post_event PNone (PStr "L,298.4,308.2,1582,70.7,216")).
  - exists (PDict ∅). vm_compute; reflexivity.
  - vm_compute; reflexivity.
  - vm_compute; reflexivity.
  - reflexivity.
Defined.

Lemma lambda_handler_reply_error_run :
  lambda_handler
    (LambdaCases.world_of (inr "<html>") (inl JSONDecodeError))
    Fixture.post_event PNone =
    ([Stdout "Received event: <json>";
      InvokeEndpoint ENDPOINT_NAME "text/csv"
                     (PStr "L,298.4,308.2,1582,70.7,216");
      Stdout "<response>"],
     inl JSONDecodeError).
Proof.
  apply (lambda_handler_reply_error
           (LambdaCases.world_of (inr "<html>") (inl JSONDecodeError))
           Fixture.post_event PNone (PStr "L,298.4,308.2,1582,70.7,216")
           "<html>" JSONDecodeError).
  - exists (PDict ∅). vm_compute; reflexivity.
  - vm_compute; reflexivity.
  - vm_compute; reflexivity.
  - reflexivity.
  - right. exists "<html>". split; reflexivity.
Defined.

Lemma lambda_handler_no_prediction_run :
  outcome (lambda_handler
             (LambdaCases.world_of (inr "{}")
                                   (inr (PDict LambdaCases.empty_reply)))
             Fixture.post_event PNone) = inl IndexError
  ∧ outcome (lambda_handler
               (LambdaCases.world_of (inr "{}")
                                     (inr (PDict LambdaCases.error_reply)))
               Fixture.post_event PNone) =
      inl (KeyError (PStr "predictions")).
Proof.
  split.
  - apply (lambda_handler_no_prediction
             (LambdaCases.world_of (inr "{}")
                                   (inr (PDict LambdaCases.empty_reply)))
             Fixture.post_event PNone (PStr "L,298.4,308.2,1582,70.7,216")
             "{}" "{}" LambdaCases.empty_reply).
    + exists (PDict ∅). vm_compute; reflexivity.
    + vm_compute; reflexivity.
    + vm_compute; reflexivity.
    + reflexivity.
    + reflexivity.
    + reflexivity.
    + right. vm_compute; reflexivity.
  - apply (lambda_handler_no_prediction
             (LambdaCases.world_of (inr "{}")
                                   (inr (PDict LambdaCases.error_reply)))
             Fixture.post_event PNone (PStr "L,298.4,308.2,1582,70.7,216")
             "{}" "{}" LambdaCases.error_reply).
    + exists (PDict ∅). vm_compute; reflexivity.
    + vm_compute; reflexivity.
    + vm_compute; reflexivity.
    + reflexivity.
    + reflexivity.
    + reflexivity.
    + left. vm_compute; reflexivity.
Defined.

Lemma lambda_handler_returns_run :
  ∃ score,
    PDict {[ "statusCode" := PInt 200; "body" := PStr "0.5";
             "headers" := PDict headers ]} =
    PDict {[ "statusCode" := PInt 200;
             "body" := PStr (Fixture.str score);
             "headers" := PDict headers ]}.
Proof.
  destruct (lambda_handler_returns Fixture.world Fixture.post_event PNone
              (PDict {[ "statusCode" := PInt 200; "body" := PStr "0.5";
                        "headers" := PDict headers ]}))
    as [[Hv _] | (score & Hv & _)].
  - vm_compute; reflexivity.
  - discriminate Hv.
  - exists score. exact Hv.
Defined.

(** ** The networking templates: references, routes, export names *)

Section networking_more.
Import Cfn CfnGraph Networking.

Lemma sub_vars_examples :
  sub_vars "${AWS::StackName}-vpc" = ["AWS::StackName"]
  ∧ sub_vars "studio-security-group" = []
  ∧ sub_vars "arn:${AWS::Partition}:s3:::${Bucket}/$x" =
      ["AWS::Partition"; "Bucket"]
  ∧ getatt_resource "SageMakerNATEIP.AllocationId" = "SageMakerNATEIP".
Proof. split_and!; reflexivity. Qed.

Lemma resolvesb_sound t :
  forallb (resolvesb t) (template_refs t) = true →
  ∀ n, n ∈ template_refs t →
       is_Some (Resources t !! n) ∨ n ∈ pseudo_parameters.
Proof.
  rewrite forallb_forall. intros Hall n Hn%list_elem_of_In.
  specialize (Hall n Hn). unfold resolvesb in Hall.
  apply orb_true_iff in Hall as [H%bool_decide_eq_true | H%bool_decide_eq_true];
    [by left | by right].
Qed.

(** X10. No template has a dangling reference: every name that a [Ref],
    an [Fn::GetAtt], an [Fn::Sub] variable or a [DependsOn] of a resource
    or output mentions is a resource declared in the same template or a
    pseudo parameter. (VPC mode makes 44 such references, direct mode
    24.) *)
Theorem template_references_resolve :
  (∀ n, n ∈ template_refs vpc_mode →
        is_Some (Resources vpc_mode !! n) ∨ n ∈ pseudo_parameters)
  ∧ (∀ n, n ∈ template_refs direct_mode →
          is_Some (Resources direct_mode !! n) ∨ n ∈ pseudo_parameters)
  ∧ length (template_refs vpc_mode) = 44%nat
  ∧ length (template_refs direct_mode) = 24%nat.
Proof.
  split_and!.
  - apply resolvesb_sound. vm_compute. reflexivity.
  - apply resolvesb_sound. vm_compute. reflexivity.
  - vm_compute. reflexivity.
  - vm_compute. reflexivity.
Qed.

Lemma one_way_outb_sound t sn :
  one_way_outb t sn = true →
  ∃ rt target to,
    route_tables_of t sn = [rt]
    ∧ has_type t RouteTable rt
    ∧ default_routes t rt = [(target, to)]
    ∧ ((target = "GatewayId" ∧ type_of t to = Some InternetGateway)
       ∨ (target = "NatGatewayId" ∧ type_of t to = Some NatGateway)).
Proof.
  unfold one_way_outb, way_out.
  destruct (route_tables_of t sn) as [|rt [|? ?]]; try discriminate.
  destruct (default_routes t rt) as [|[target to] [|? ?]] eqn:Hroutes;
    try discriminate.
  rewrite andb_true_iff, !bool_decide_eq_true. intros [Hrt Hto].
  exists rt, target, to.
  split_and!; [reflexivity | exact Hrt | exact Hroutes | exact Hto].
Qed.

Lemma all_subnets_one_way_out t :
  forallb (one_way_outb t) (names_of t Subnet) = true →
  ∀ sn, has_type t Subnet sn →
    ∃ rt target to,
      route_tables_of t sn = [rt]
      ∧ has_type t RouteTable rt
      ∧ default_routes t rt = [(target, to)]
      ∧ ((target = "GatewayId" ∧ type_of t to = Some InternetGateway)
         ∨ (target = "NatGatewayId" ∧ type_of t to = Some NatGateway)).
Proof.
  rewrite forallb_forall. intros Hall sn Hsn.
  apply one_way_outb_sound, Hall, list_elem_of_In, elem_of_names_of, Hsn.
Qed.

(** X11. In both templates every subnet has exactly one route-table
    association, to a route table declared in the template, and that
    table has exactly one default route, to a declared Internet gateway
    or NAT gateway. In VPC mode the private subnets are associated with
    the private route table and leave through the NAT gateway, and the
    one NAT gateway sits in the public subnet, which is associated with
    the public route table and leaves through the Internet gateway; in
    direct mode every subnet is associated with the public route table
    and leaves through the Internet gateway. *)
Theorem subnets_have_one_way_out :
  (∀ t sn, t ∈ [vpc_mode; direct_mode] → has_type t Subnet sn →
     ∃ rt target to,
       route_tables_of t sn = [rt]
       ∧ has_type t RouteTable rt
       ∧ default_routes t rt = [(target, to)]
       ∧ ((target = "GatewayId" ∧ type_of t to = Some InternetGateway)
          ∨ (target = "NatGatewayId" ∧ type_of t to = Some NatGateway)))
  ∧ (∀ sn, private_subnet vpc_mode sn →
       way_out vpc_mode sn =
         Some ("SageMakerPrivateRouteTable", "NatGatewayId",
               "SageMakerNATGateway"))
  ∧ nat_subnets vpc_mode = ["SageMakerPublicSubnet1"]
  ∧ way_out vpc_mode "SageMakerPublicSubnet1" =
      Some ("SageMakerPublicRouteTable", "GatewayId",
            "SageMakerInternetGateway")
  ∧ (∀ sn, has_type direct_mode Subnet sn →
       way_out direct_mode sn =
         Some ("SageMakerPublicRouteTable", "GatewayId",
               "SageMakerInternetGateway")).
Proof.
  split_and!.
  - intros t sn Ht. apply all_subnets_one_way_out.
    repeat (apply elem_of_cons in Ht as [-> | Ht];
            [vm_compute; reflexivity |]).
    by apply elem_of_nil in Ht.
  - intros sn Hsn%private_subnet_spec.
    rewrite vpc_mode_private_subnets in Hsn.
    repeat (apply elem_of_cons in Hsn as [-> | Hsn];
            [vm_compute; reflexivity |]).
    by apply elem_of_nil in Hsn.
  - vm_compute. reflexivity.
  - vm_compute. reflexivity.
  - intros sn Hsn%elem_of_names_of.
    replace (names_of direct_mode Subnet)
      with ["SageMakerPublicSubnet1"; "SageMakerPublicSubnet2"] in Hsn
      by (vm_compute; reflexivity).
    repeat (apply elem_of_cons in Hsn as [-> | Hsn];
            [vm_compute; reflexivity |]).
    by apply elem_of_nil in Hsn.
Qed.

(** *** Export names *)

Lemma length_app s t :
  String.length (s +:+ t) = (String.length s + String.length t)%nat.
Proof. induction s as [|c s IH]; simpl; [done | by f_equal]. Qed.

Lemma app_inv_tail a b s : a +:+ s = b +:+ s → a = b.
Proof.
  revert b. induction a as [|c a IH]; intros [|c' b] H; simpl in H.
  - done.
  - apply (f_equal String.length) in H. simpl in H.
    rewrite !length_app in H. simpl in H. lia.
  - apply (f_equal String.length) in H. simpl in H.
    rewrite !length_app in H. simpl in H. lia.
  - injection H as -> H. by rewrite (IH _ H).
Qed.

Lemma last_char_app s c t :
  last_char (s +:+ String c t) = last_char (String c t).
Proof.
  induction s as [|c' s IH]; [done |].
  cbn [String.app]. rewrite <- IH. cbn.
  by destruct s.
Qed.

Lemma export_names_templates StackName :
  export_names StackName vpc_mode = String.append StackName <$> suffixes
  ∧ export_names StackName direct_mode =
      String.append StackName <$> ["-Subnet1"; "-Subnet2"; "-VPC"].
Proof. split; vm_compute; reflexivity. Qed.

Lemma export_names_suffixed StackName t n :
  t ∈ [vpc_mode; direct_mode] → n ∈ export_names StackName t →
  ∃ x, x ∈ suffixes ∧ n = StackName +:+ x.
Proof.
  intros Ht Hn. destruct (export_names_templates StackName) as [Ev Ed].
  apply elem_of_cons in Ht as [-> | Ht%list_elem_of_singleton].
  - rewrite Ev in Hn. clear Ev Ed.
    apply list_elem_of_fmap in Hn as (x & -> & Hx). by exists x.
  - subst t. rewrite Ed in Hn. clear Ev Ed.
    apply list_elem_of_fmap in Hn as (x & -> & Hx). exists x.
    split; [|done]. unfold suffixes.
    repeat (apply elem_of_cons in Hx as [-> | Hx]; [repeat constructor |]).
    by apply elem_of_nil in Hx.
Qed.

(** Names made of a stack name and two of the templates' suffixes are
    equal only for equal stack names and equal suffixes: the suffixes end
    in four different characters. *)
Lemma suffixed_inj a b x y :
  x ∈ suffixes → y ∈ suffixes → a +:+ x = b +:+ y → a = b ∧ x = y.
Proof.
  unfold suffixes. intros Hx Hy H.
  assert (last_char x = last_char y) as Hl.
  { repeat (apply elem_of_cons in Hx as [-> | Hx]);
      try (by apply elem_of_nil in Hx);
      repeat (apply elem_of_cons in Hy as [-> | Hy]);
      try (by apply elem_of_nil in Hy);
      apply (f_equal last_char) in H; by rewrite !last_char_app in H. }
  assert (x = y) as ->.
  { clear H.
    repeat (apply elem_of_cons in Hx as [-> | Hx]);
      try (by apply elem_of_nil in Hx);
      repeat (apply elem_of_cons in Hy as [-> | Hy]);
      try (by apply elem_of_nil in Hy);
      first [reflexivity | discriminate Hl]. }
  split; [by apply app_inv_tail in H | done].
Qed.

(** X12. Export names do not collide. Within one stack of either template
    the exported names are pairwise different, one for each output; and
    two stacks with different names, of the same template or not, export
    no name in common. *)
Theorem export_names_do_not_collide :
  (∀ StackName t, t ∈ [vpc_mode; direct_mode] →
     NoDup (export_names StackName t)
     ∧ length (export_names StackName t) = size (Outputs t))
  ∧ (∀ sn1 sn2 t1 t2 n,
       t1 ∈ [vpc_mode; direct_mode] → t2 ∈ [vpc_mode; direct_mode] →
       n ∈ export_names sn1 t1 → n ∈ export_names sn2 t2 → sn1 = sn2).
Proof.
  split.
  - intros sn t Ht. destruct (export_names_templates sn) as [Ev Ed].
    apply elem_of_cons in Ht as [-> | Ht%list_elem_of_singleton].
    + rewrite Ev. clear Ev Ed. split; [|vm_compute; reflexivity].
      apply (NoDup_fmap_2 _). apply (bool_decide_unpack _).
      vm_compute. exact I.
    + subst t. rewrite Ed. clear Ev Ed. split; [|vm_compute; reflexivity].
      apply (NoDup_fmap_2 _). apply (bool_decide_unpack _).
      vm_compute. exact I.
  - intros sn1 sn2 t1 t2 n Ht1 Ht2 H1 H2.
    apply export_names_suffixed in H1 as (x & Hx & ->); [|exact Ht1].
    apply export_names_suffixed in H2 as (y & Hy & E); [|exact Ht2].
    clear Ht1 Ht2. by apply suffixed_inj in E as [? _].
Qed.

End networking_more.

(** ** The pipeline notebook: parameters, step order, the two notebooks *)

Section notebook_more.
Import Sdk Notebook PipelineGraph.
Variable env : session.

Ltac in_list :=
  rewrite ?elem_of_cons; repeat first [left; reflexivity | right].

Ltac by_cases H :=
  repeat (apply elem_of_cons in H as [-> | H]; [in_list |]);
  by apply elem_of_nil in H.

(** X13. The steps of the pipeline are built from exactly the parameters
    the pipeline declares: each of the twenty parameters is used by some
    step, no step uses a parameter that is not in the list, and the steps
    make twenty uses in all, so each parameter is used once. *)
Theorem pipeline_parameters_all_used :
  (∀ p, p ∈ used_parameters (pipeline env) ↔
        p ∈ Pipeline.parameters (pipeline env))
  ∧ length (used_parameters (pipeline env)) = 20%nat.
Proof.
  split; [|vm_compute; reflexivity].
  intros p. split; intros Hp; vm_compute in Hp; vm_compute; by_cases Hp.
Qed.

(** *** Step order *)

Lemma topologicalb_sound steps : ∀ seen,
  topologicalb seen steps = true →
  NoDup (step_name <$> steps)
  ∧ (∀ s, s ∈ steps → step_name s ∉ seen)
  ∧ ∀ i s n, steps !! i = Some s → n ∈ referenced_steps s →
      n ∈ seen ∨ ∃ j s', (j < i)%nat ∧ steps !! j = Some s' ∧ step_name s' = n.
Proof.
  induction steps as [|s0 rest IH]; intros seen H.
  { split_and!; [constructor | by intros ? ?%elem_of_nil | by intros []]. }
  cbn in H. rewrite !andb_true_iff, forallb_forall in H.
  destruct H as [[Hrefs Hfresh%bool_decide_eq_true] Hrest].
  destruct (IH _ Hrest) as (Hnd & Hout & Hdeps). split_and!.
  - cbn. apply NoDup_cons. split; [|done].
    intros (s' & Hn & Hs')%list_elem_of_fmap.
    apply (Hout s' Hs'). rewrite <- Hn. left.
  - intros s [-> | Hs]%elem_of_cons; [done |].
    intros Hin. apply (Hout s Hs). by right.
  - intros [|i] s n Hi Hn; cbn in Hi.
    + injection Hi as <-. left.
      eapply bool_decide_eq_true_1, Hrefs. by apply list_elem_of_In.
    + destruct (Hdeps i s n Hi Hn) as [[-> | Hin]%elem_of_cons
                                       | (j & s' & Hj & Hs' & Hname)].
      * right. exists 0%nat, s0. split_and!; [lia | done | done].
      * by left.
      * right. exists (S j), s'. split_and!; [lia | done | done].
Qed.

(** X14. The pipeline lists its steps in dependency order: the three step
    names are different, and every step whose properties a step reads is
    an earlier step of the list. Processing reads from no step, training
    reads from processing, and the register step reads from both. *)
Theorem pipeline_steps_in_dependency_order :
  NoDup (step_name <$> Pipeline.steps (pipeline env))
  ∧ (∀ i s n,
       Pipeline.steps (pipeline env) !! i = Some s →
       n ∈ referenced_steps s →
       ∃ j s', (j < i)%nat ∧ Pipeline.steps (pipeline env) !! j = Some s'
               ∧ step_name s' = n)
  ∧ referenced_steps <$> Pipeline.steps (pipeline env) =
      [[]; ["Processing"; "Processing"];
       ["Processing"; "Training"]].
Proof.
  destruct (topologicalb_sound (Pipeline.steps (pipeline env)) [])
    as (Hnd & _ & Hdeps); [vm_compute; reflexivity |].
  split_and!; [done | | vm_compute; reflexivity].
  intros i s n Hi Hn.
  by destruct (Hdeps i s n Hi Hn) as [?%elem_of_nil | ?].
Qed.

(** X15. The notebook starts one execution, and overrides one parameter,
    [train_test_split_ratio], with the value that is its default: every
    parameter of the pipeline has its default value in that execution. *)
Theorem notebook_execution_uses_defaults :
  start_overrides (cells env) =
    [ {[ "train_test_split_ratio" := VStr "0.2" ]} ]
  ∧ "train_test_split_ratio" ∈
      parameter_name <$> Pipeline.parameters (pipeline env)
  ∧ ∀ p, p ∈ Pipeline.parameters (pipeline env) →
      parameter_value {[ "train_test_split_ratio" := VStr "0.2" ]} p =
        parameter_default p.
Proof.
  split_and!; [reflexivity | cbn; in_list |].
  intros p Hp. cbn in Hp.
  repeat (apply elem_of_cons in Hp as [-> | Hp]; [reflexivity |]).
  by apply elem_of_nil in Hp.
Qed.

(** *** The processing job of module 3 and the processing step *)

Lemma string_app_assoc a b c : (a +:+ b) +:+ c = a +:+ (b +:+ c).
Proof.
  induction a as [|x a IH]; [reflexivity |].
  change (String x ((a +:+ b) +:+ c) = String x (a +:+ (b +:+ c))).
  by rewrite IH.
Qed.

Lemma model_path_module_8 :
  model_path env =
    FeatureEngineering.model_path (bucket_name env) +:+ "model.tar.gz".
Proof.
  unfold model_path, s3, FeatureEngineering.model_path.
  rewrite !string_app_assoc. reflexivity.
Qed.

(** X16. With default parameter values, the processing step of the
    pipeline asks for the job that module 3 runs by hand on the same
    bucket: the same instance type and count, framework version, input,
    arguments and train, validation and test destinations. Only the
    destination of the featurizer model differs: the pipeline appends
    [model.tar.gz] to the directory module 3 writes to. *)
Theorem processing_step_matches_module_3 :
  let j3 := FeatureEngineering.job_of ∅
              (FeatureEngineering.run (role env) (bucket_name env)) in
  let j8 := FeatureEngineering.job_of ∅ (processing_step env) in
  FeatureEngineering.instance_type j8 = FeatureEngineering.instance_type j3
  ∧ FeatureEngineering.instance_count j8 = FeatureEngineering.instance_count j3
  ∧ FeatureEngineering.framework_version j8
    = FeatureEngineering.framework_version j3
  ∧ FeatureEngineering.inputs j8 = FeatureEngineering.inputs j3
  ∧ FeatureEngineering.arguments j8 = FeatureEngineering.arguments j3
  ∧ take 3 (FeatureEngineering.outputs j8)
    = take 3 (FeatureEngineering.outputs j3)
  ∧ FeatureEngineering.outputs j3 !! 3%nat =
      Some ("model", "/opt/ml/processing/model",
            Some (VStr (FeatureEngineering.model_path (bucket_name env))))
  ∧ FeatureEngineering.outputs j8 !! 3%nat =
      Some ("model", "/opt/ml/processing/model",
            Some (VStr (FeatureEngineering.model_path (bucket_name env)
                        +:+ "model.tar.gz"))).
Proof.
  cbn zeta. split_and!; try reflexivity.
  rewrite <- model_path_module_8. reflexivity.
Qed.

(** X17. The raw data file module 3 uploads lies directly under the S3
    prefix its processing job reads, and the feature file it downloads
    afterwards lies directly under the prefix the job writes its
    validation output to, whatever the bucket. *)
Theorem module_3_files_under_job_paths (s3_bucket_name : string) :
  FeatureEngineering.uploaded s3_bucket_name =
    FeatureEngineering.raw_data_path s3_bucket_name
      +:+ FeatureEngineering.raw_data_file_name
  ∧ FeatureEngineering.downloaded s3_bucket_name =
      FeatureEngineering.val_data_path s3_bucket_name +:+ "val_features.csv".
Proof.
  unfold FeatureEngineering.uploaded, FeatureEngineering.upload_data,
    FeatureEngineering.downloaded, FeatureEngineering.raw_data_path,
    FeatureEngineering.val_data_path, FeatureEngineering.raw_data_key,
    FeatureEngineering.validation_features_key_prefix.
  split; rewrite !string_app_assoc; reflexivity.
Qed.

(** *** The endpoint the Lambda function calls *)

(** X18. The endpoint name written in the Lambda function is a
    placeholder: the pipeline notebook names its endpoint with the same
    prefix followed by a decimal timestamp, so the function as written
    never names an endpoint that the notebook deploys. *)
Theorem ENDPOINT_NAME_is_a_placeholder :
  is_decimal (timestamp env 3) = true →
  Lambda.ENDPOINT_NAME ≠ endpoint_name env
  ∧ ∃ suffix, Lambda.ENDPOINT_NAME =
                "end-to-end-ml-sm-pipeline-endpoint-" +:+ suffix
              ∧ endpoint_name env =
                "end-to-end-ml-sm-pipeline-endpoint-" +:+ timestamp env 3.
Proof.
  intros Hd. split; [|by exists "XXXXXXXXXX"].
  unfold endpoint_name. intros E.
  change Lambda.ENDPOINT_NAME
    with ("end-to-end-ml-sm-pipeline-endpoint-" +:+ "XXXXXXXXXX") in E.
  apply (inj _) in E. rewrite <- E in Hd. discriminate Hd.
Qed.

End notebook_more.

(** A session whose clock reads 1700000000. *)
Lemma ENDPOINT_NAME_is_a_placeholder_run :
  Lambda.ENDPOINT_NAME ≠ "end-to-end-ml-sm-pipeline-endpoint-1700000000".
Proof.
  apply (ENDPOINT_NAME_is_a_placeholder
           {| Notebook.role := "arn:aws:iam::111122223333:role/workshop";
              Notebook.bucket_name := "sagemaker-eu-west-1-111122223333";
              Notebook.experiment_name := "ml-end-to-end";
              Notebook.timestamp := λ _, "1700000000" |}).
  vm_compute; reflexivity.
Defined.
